(** * SpecScan backend: the analyze endpoint of [src/backend/server.js]

    A shallow embedding of the upload -> per-item inference -> aggregation
    pipeline of the Express server, and the properties of its specification.

    JavaScript values are embedded as the inductive type [value]; objects are
    association lists in insertion order.  Numbers are the integers (the
    code only builds indices, counts and status codes; provider numbers are
    passed through untouched).  The handler runs in a small monad that
    threads the mutable state of one request (the [results] array and the
    log of outbound calls) and carries JavaScript exceptions.

    The model of a request starts where the multipart parser of the upload
    middleware hands over what it has read: for every file of the body, the
    base name of its filename, its media type in the parser's normal form
    and its bytes; the form fields are taken as read, within the parser's
    limits, and the body as complete. *)

From Stdlib Require Import List String Ascii ZArith NArith Arith Lia Bool.
From Stdlib Require Import DecimalString DecimalZ DecimalPos.
Import ListNotations.
Local Open Scope string_scope.
Set Warnings "-register-all".

(* ===================================================================== *)
(** ** JavaScript values *)
(* ===================================================================== *)

Inductive value : Type :=
| VUndefined
| VNull
| VBool (b : bool)
| VNum (n : Z)
| VStr (s : string)
| VArr (elems : list value)
| VObj (fields : list (string * value)).

(** [String(n)] for an integer. *)
Definition string_of_Z (n : Z) : string :=
  NilZero.string_of_int (Z.to_int n).

Definition string_of_nat (n : nat) : string :=
  string_of_Z (Z.of_nat n).

(** ToBoolean: what [||], [!] and [if] test. *)
Definition truthy (v : value) : bool :=
  match v with
  | VUndefined | VNull => false
  | VBool b => b
  | VNum n => negb (n =? 0)%Z
  | VStr s => negb (s =? EmptyString)
  | VArr _ | VObj _ => true
  end.

(** [a || b] *)
Definition js_or (a b : value) : value :=
  if truthy a then a else b.

(** Template-literal conversion [`${v}`].  Integers are printed in full,
    as JavaScript does below 10^21; it prints larger ones in exponent form,
    and nothing below is stated about the text of such a number. *)
Fixpoint to_js_string (v : value) : string :=
  match v with
  | VUndefined => "undefined"
  | VNull => "null"
  | VBool true => "true"
  | VBool false => "false"
  | VNum n => string_of_Z n
  | VStr s => s
  | VArr elems =>
      (fix join (l : list value) : string :=
         match l with
         | [] => EmptyString
         | x :: rest =>
             let sx := match x with
                       | VUndefined | VNull => EmptyString
                       | _ => to_js_string x
                       end in
             match rest with
             | [] => sx
             | _ :: _ => sx ++ "," ++ join rest
             end
         end) elems
  | VObj _ => "[object Object]"
  end.

(** Own-property lookup in an object literal: the first binding of the key. *)
Fixpoint lookup (k : string) (fields : list (string * value)) : option value :=
  match fields with
  | [] => None
  | (k', v) :: rest => if k' =? k then Some v else lookup k rest
  end.

(** Assignment of a property: an existing key keeps its position and takes
    the new value, a new key is appended. *)
Fixpoint obj_set (k : string) (v : value) (fields : list (string * value))
  : list (string * value) :=
  match fields with
  | [] => [(k, v)]
  | (k', v') :: rest =>
      if k' =? k then (k', v) :: rest else (k', v') :: obj_set k v rest
  end.

(** Index keys ["0"], ["1"], ... of an array or of a string's characters. *)
Fixpoint indexed {A : Type} (i : nat) (l : list A) : list (string * A) :=
  match l with
  | [] => []
  | x :: rest => (string_of_nat i, x) :: indexed (S i) rest
  end.

Fixpoint chars (s : string) : list value :=
  match s with
  | EmptyString => []
  | String c rest => VStr (String c EmptyString) :: chars rest
  end.

(** The own enumerable properties copied by an object spread [{...p}]. *)
Definition spread (p : value) : list (string * value) :=
  match p with
  | VObj fields => fields
  | VArr elems => indexed 0 elems
  | VStr s => indexed 0 (chars s)
  | VUndefined | VNull | VBool _ | VNum _ => []
  end.

(* ===================================================================== *)
(** ** Errors and the request monad *)
(* ===================================================================== *)

Inductive error_class : Type :=
| PlainError      (* new Error(...) and errors of other libraries *)
| TypeErrorClass  (* raised by the runtime *)
| MulterError     (* multer.MulterError *)
| AxiosError.     (* rejection of axios.post *)

(** [error.response] of a rejected call that did receive a reply. *)
Record error_response : Type := mkErrorResponse {
  resp_status : value;
  resp_statusText : value;
  resp_data : value
}.

(** An Error object: the properties the server reads. *)
Record js_error : Type := mkError {
  err_class : error_class;
  err_message : value;
  err_code : value;
  err_response : option error_response
}.

Definition new_Error (msg : string) : js_error :=
  mkError PlainError (VStr msg) VUndefined None.

Definition new_TypeError (msg : string) : js_error :=
  mkError TypeErrorClass (VStr msg) VUndefined None.

Definition new_MulterError (code msg : string) : js_error :=
  mkError MulterError (VStr msg) (VStr code) None.

(** Outcome of evaluating an expression or statement: a value, or a throw. *)
Inductive completion (A : Type) : Type :=
| Normal (a : A)
| Thrown (e : js_error).
Arguments Normal {A} a.
Arguments Thrown {A} e.

(** Member access [v.k] on a value that is neither null nor undefined.
    Only own properties are modelled; the names the server reads
    (predictions, image, width, height, area) are not on any prototype. *)
Definition member (v : value) (k : string) : value :=
  match v with
  | VObj fields =>
      match lookup k fields with Some x => x | None => VUndefined end
  | VArr elems =>
      if k =? "length" then VNum (Z.of_nat (List.length elems))
      else match lookup k (indexed 0 elems) with
           | Some x => x
           | None => VUndefined
           end
  | VStr s =>
      if k =? "length" then VNum (Z.of_nat (String.length s))
      else match lookup k (indexed 0 (chars s)) with
           | Some x => x
           | None => VUndefined
           end
  | _ => VUndefined
  end.

Definition nullish (v : value) : bool :=
  match v with
  | VUndefined | VNull => true
  | _ => false
  end.

(** [v.k]: reading a property of null or undefined raises a TypeError. *)
Definition get_prop (v : value) (k : string) : completion value :=
  if nullish v
  then Thrown (new_TypeError
         ("Cannot read properties of " ++ to_js_string v ++
          " (reading '" ++ k ++ "')"))
  else Normal (member v k).

(** [v?.k] *)
Definition get_opt (v : value) (k : string) : value :=
  if nullish v then VUndefined else member v k.

(** [v.map(f)]: only arrays have a [map] method among the values a parsed
    reply can hold. *)
Definition array_map (f : value -> value) (v : value) : completion value :=
  match v with
  | VArr elems => Normal (VArr (map f elems))
  | _ => Thrown (new_TypeError "(intermediate value).map is not a function")
  end.

(** [v === "lit"] *)
Definition str_is (v : value) (lit : string) : bool :=
  match v with
  | VStr s => s =? lit
  | _ => false
  end.

(** An in-memory upload: the bytes are opaque to the server, which only
    forwards them; [byteLength] is their number and [content] stands for
    them. *)
Record Buffer : Type := mkBuffer {
  byteLength : N;
  content : N
}.

(** What one [axios.post] sends. *)
Record outbound_call : Type := mkCall {
  call_url : string;
  call_filename : string;
  call_contentType : string;
  call_body : Buffer
}.

Inductive axios_result : Type :=
| Resolved (data : value)      (* the promise fulfils; [response.data] *)
| Rejected (e : js_error).     (* the promise rejects *)

(** The mutable state of one request: the [results] array of the handler
    and the outbound calls made so far. *)
Record req_state : Type := mkState {
  results : list value;
  calls : list outbound_call
}.

Definition initial_state : req_state := mkState [] [].

Definition M (A : Type) : Type := req_state -> completion A * req_state.

Definition ret {A} (a : A) : M A := fun st => (Normal a, st).

Definition bind {A B} (m : M A) (k : A -> M B) : M B :=
  fun st =>
    match m st with
    | (Normal a, st') => k a st'
    | (Thrown e, st') => (Thrown e, st')
    end.

Definition lift {A} (c : completion A) : M A := fun st => (c, st).

(** [try { body } catch (error) { handler }]: the state changes of the body
    made before the throw are kept. *)
Definition try_catch {A} (body : M A) (handler : js_error -> M A) : M A :=
  fun st =>
    match body st with
    | (Normal a, st') => (Normal a, st')
    | (Thrown e, st') => handler e st'
    end.

(** [results.push(r)] *)
Definition push_result (r : value) : M unit :=
  fun st => (Normal tt, mkState (results st ++ [r]) (calls st)).

Definition get_results : M (list value) :=
  fun st => (Normal (results st), st).

(** [const results = []] *)
Definition new_results : M unit :=
  fun st => (Normal tt, mkState [] (calls st)).

Declare Scope js_scope.
Delimit Scope js_scope with js.
Notation "x <- c1 ;; c2" := (bind c1 (fun x => c2))
  (at level 61, c1 at next level, right associativity) : js_scope.
Notation "c1 ;; c2" := (bind c1 (fun _ => c2))
  (at level 61, right associativity) : js_scope.

(* ===================================================================== *)
(** ** The upload middleware (multer) *)
(* ===================================================================== *)

(** One file of a multipart body, as the parser hands it to the upload
    middleware: [part_filename] is the base name of the filename that was
    sent (empty when there is none), [part_mimetype] the media type in the
    parser's normal form (lower case, without parameters), which is what
    the file filter sees as [file.mimetype]. *)
Record file_part : Type := mkPart {
  part_fieldname : string;
  part_filename : string;
  part_mimetype : string;
  part_data : Buffer
}.

(** The file object multer's memory storage attaches to the request. *)
Record UploadedFile : Type := mkFile {
  fieldname : string;
  originalname : string;
  mimetype : string;
  buffer : Buffer;
  size : N
}.

(** [limits.fileSize]: 10 * 1024 * 1024 *)
Definition fileSize_limit : N := 10 * 1024 * 1024.

(** [file.mimetype.startsWith('image/')] *)
Definition is_image_type (mime : string) : bool :=
  String.prefix "image/" mime.

(** The [fileFilter] option: the two arguments it hands to [cb]. *)
Definition fileFilter (file : file_part) : option js_error * bool :=
  if is_image_type (part_mimetype file)
  then (None, true)
  else (Some (new_Error "Only image files are allowed"), false).

Definition stored_file (p : file_part) : UploadedFile :=
  mkFile (part_fieldname p) (part_filename p) (part_mimetype p)
         (part_data p) (byteLength (part_data p)).

(** The upload library is not part of the repository; this is its behaviour
    for the configuration of the server (memory storage, a [fileSize] limit,
    a [fileFilter], [upload.any()]).  Files are taken in the order of the
    body.  A file without a name is let through unread and is not attached.
    For every other file the filter is asked first, on the file's headers;
    an accepted file is then read, and fails with [LIMIT_FILE_SIZE] as soon
    as the bytes read reach the limit, so that a file is stored only when
    it is smaller than the limit.  The first error ends the upload and is
    the single [err] passed to the callback.  Text fields are taken as
    already parsed ([form_fields]); the library's own limits on fields and
    on the number of parts, and a body that ends early, are left out. *)
Fixpoint receive_parts (parts : list file_part) (accepted : list UploadedFile)
  : js_error + list UploadedFile :=
  match parts with
  | [] => inr accepted
  | p :: rest =>
      if part_filename p =? EmptyString then receive_parts rest accepted
      else
        match fileFilter p with
        | (Some err, _) => inl err
        | (None, false) => receive_parts rest accepted
        | (None, true) =>
            if (fileSize_limit <=? byteLength (part_data p))%N
            then inl (new_MulterError "LIMIT_FILE_SIZE" "File too large")
            else receive_parts rest (accepted ++ [stored_file p])
        end
  end.

(** An incoming POST: [multipart] tells whether the body is
    multipart/form-data; [prior_body] is what the JSON body parser left in
    [req.body]. *)
Record http_request : Type := mkRequest {
  multipart : bool;
  file_parts : list file_part;
  form_fields : list (string * value);
  prior_body : value
}.

(** The request object as the handlers see it. *)
Record express_req : Type := mkReq {
  req_files : option (list UploadedFile);
  req_file : option UploadedFile;
  req_body : value
}.

(** [upload.any()(req, res, cb)]: the error given to [cb], and the request
    after the middleware.  A body that is not multipart is passed on
    untouched. *)
Definition upload_any (r : http_request) : option js_error * express_req :=
  if multipart r then
    match receive_parts (file_parts r) [] with
    | inl err => (Some err, mkReq None None (VObj (form_fields r)))
    | inr files => (None, mkReq (Some files) None (VObj (form_fields r)))
    end
  else (None, mkReq None None (prior_body r)).

(* ===================================================================== *)
(** ** The server *)
(* ===================================================================== *)

Record http_response : Type := mkResponse {
  status : value;
  body : value
}.

(** [res.status(code).json(obj)] and [res.json(obj)] *)
Definition res_status_json (code : value) (obj : list (string * value))
  : http_response := mkResponse code (VObj obj).

Definition res_json (obj : list (string * value)) : http_response :=
  mkResponse (VNum 200) (VObj obj).

(** A status code that can be sent: an integer from 100 to 999. *)
Definition sendable_status (code : value) : bool :=
  match code with
  | VNum n => (100 <=? n)%Z && (n <=? 999)%Z
  | _ => false
  end.

(** The error raised when a reply is sent with another status. *)
Definition invalid_status_error (code : value) : js_error :=
  mkError PlainError (VStr ("Invalid status code: " ++ to_js_string code))
          (VStr "ERR_HTTP_INVALID_STATUS_CODE") None.

(** [res.status(code).json(obj)] for a status computed at run time: the
    reply is sent when the status can be, and the call throws otherwise. *)
Definition res_status_send (code : value) (obj : list (string * value))
  : completion http_response :=
  if sendable_status code then Normal (res_status_json code obj)
  else Thrown (invalid_status_error code).

(** What a middleware does with a request. *)
Inductive middleware_result : Type :=
| Responded (r : http_response)
| Next
| NextError (e : js_error).

(** The callback given to [upload.any()] (lines 68-96). *)
Definition upload_callback (err : option js_error) : middleware_result :=
  match err with
  | Some err =>
      if str_is (err_message err) "Only image files are allowed" then
        Responded (res_status_json (VNum 400)
          [("error", VStr "Invalid file type");
           ("message", VStr "Only image files are allowed")])
      else
        match err_class err with
        | MulterError =>
            if str_is (err_code err) "LIMIT_FILE_SIZE" then
              Responded (res_status_json (VNum 400)
                [("error", VStr "File too large");
                 ("message", VStr "Image must be less than 10MB")])
            else
              Responded (res_status_json (VNum 400)
                [("error", VStr "Upload error");
                 ("message", err_message err)])
        | _ => NextError err
        end
  | None => Next
  end.

(** The error-handling middleware (lines 243-250). *)
Definition error_middleware (error : js_error) : http_response :=
  res_status_json (VNum 500)
    [("error", VStr "Internal server error");
     ("message", js_or (err_message error)
                       (VStr "An unexpected error occurred"))].

(** [process.env]: the two variables the server reads. *)
Record environment : Type := mkEnv {
  env_ROBOFLOW_API_KEY : option string;
  env_ROBOFLOW_MODEL_ID : option string
}.

(** [process.env.X || dflt] *)
Definition env_or (x : option string) (dflt : string) : string :=
  match x with
  | Some s => if s =? EmptyString then dflt else s
  | None => dflt
  end.

(** [file.originalname || `image_${i + 1}.jpg`] *)
Definition item_name (i : nat) (file : UploadedFile) : string :=
  if originalname file =? EmptyString
  then "image_" ++ string_of_nat (i + 1) ++ ".jpg"
  else originalname file.

(** [p => ({...p, imageIndex: i, imageName: ...})] *)
Definition stamp (i : nat) (name : string) (p : value) : value :=
  VObj (obj_set "imageName" (VStr name)
         (obj_set "imageIndex" (VNum (Z.of_nat i)) (spread p))).

(** [arr.flatMap(f)]: an array returned by [f] is spliced in, any other
    value is added as one element. *)
Fixpoint flatMap (f : value -> completion value) (arr : list value)
  : completion (list value) :=
  match arr with
  | [] => Normal []
  | x :: rest =>
      match f x with
      | Thrown e => Thrown e
      | Normal y =>
          match flatMap f rest with
          | Thrown e => Thrown e
          | Normal ys =>
              Normal (match y with
                      | VArr elems => (elems ++ ys)%list
                      | _ => y :: ys
                      end)
          end
      end
  end.

(** [v === n] for a number literal *)
Definition num_is (v : value) (n : Z) : bool :=
  match v with
  | VNum m => (m =? n)%Z
  | _ => false
  end.

Definition nl : string := String (ascii_of_nat 10) EmptyString.

Definition forbidden_guidance : string :=
  "Access forbidden. Possible issues:" ++ nl ++
  "1. Invalid API key - Check your Roboflow API key in .env file" ++ nl ++
  "2. API key doesn't have permission for this model" ++ nl ++
  "3. Model ID might be incorrect - Format should be: project-name/version-number" ++ nl ++
  "4. Model might not be deployed or public" ++ nl ++ nl.

Definition unauthorized_message : string :=
  "Unauthorized. Check your Roboflow API key in .env file.".

Definition not_found_message : string :=
  "Model not found. Check your MODEL_ID in .env file. Format: project-name/version-number".

(** [error.response.data?.message || error.response.data?.error
     || error.message] *)
Definition remote_error_message (error : js_error) (response : error_response)
  : value :=
  js_or (js_or (get_opt (resp_data response) "message")
               (get_opt (resp_data response) "error"))
        (err_message error).

(** The message chosen from the status code (lines 196-209). *)
Definition user_message (st errorMessage : value) : value :=
  if num_is st 403 then
    VStr (forbidden_guidance ++ "Error details: " ++ to_js_string errorMessage)
  else if num_is st 401 then VStr unauthorized_message
  else if num_is st 404 then VStr not_found_message
  else errorMessage.

(** The outer [catch (error)] of the handler (lines 186-232); the line
    written to the console is left out.  With the reply of a failed call
    the status is computed, and sending can throw inside the catch. *)
Definition request_catch (error : js_error) : completion http_response :=
  match err_response error with
  | Some response =>
      let st := js_or (resp_status response) (VNum 500) in
      let statusText :=
        js_or (resp_statusText response) (VStr "Unknown error") in
      let errorMessage := remote_error_message error response in
      res_status_send st
        [("error", VStr "Roboflow API error");
         ("message", user_message st errorMessage);
         ("status", st);
         ("statusText", statusText);
         ("roboflowError", errorMessage)]
  | None =>
      if str_is (err_code error) "LIMIT_FILE_SIZE" then
        Normal (res_status_json (VNum 400)
          [("error", VStr "File too large");
           ("message", VStr "Image must be less than 10MB")])
      else
        Normal (res_status_json (VNum 500)
          [("error", VStr "Internal server error");
           ("message", js_or (err_message error)
                             (VStr "Failed to analyze image"))])
  end.

(** [r => r.predictions || []] *)
Definition predictions_or_empty (r : value) : completion value :=
  match get_prop r "predictions" with
  | Normal p => Normal (js_or p (VArr []))
  | Thrown e => Thrown e
  end.

Section Server.

Local Open Scope js_scope.

(** The process environment, read once when the module is loaded. *)
Variable env : environment.

(** The remote inference service: what the [n]-th outbound call of a request
    ([n] counted from 0) does when it sends [c]. *)
Variable axios_post : nat -> outbound_call -> axios_result.

Definition ROBOFLOW_API_KEY : string :=
  env_or (env_ROBOFLOW_API_KEY env) "YOUR_KEY_HERE".

Definition ROBOFLOW_MODEL_ID : string :=
  env_or (env_ROBOFLOW_MODEL_ID env) "YOUR_MODEL_ID_HERE".

Definition ROBOFLOW_API_URL : string :=
  "https://detect.roboflow.com/" ++ ROBOFLOW_MODEL_ID.

(** [await axios.post(url, formData, ...)]: the call is logged; a rejected
    promise is a throw at the [await], a fulfilled one gives
    [response.data]. *)
Definition await_axios_post (c : outbound_call) : M value :=
  fun st =>
    let st' := mkState (results st) (calls st ++ [c]) in
    match axios_post (List.length (calls st)) c with
    | Resolved data => (Normal data, st')
    | Rejected e => (Thrown e, st')
    end.

(** [formData] and the URL of the call for item [i] (lines 128-147). *)
Definition item_call (i : nat) (file : UploadedFile) : outbound_call :=
  mkCall (ROBOFLOW_API_URL ++ "?api_key=" ++ ROBOFLOW_API_KEY)
         (item_name i file) (mimetype file) (buffer file).

(** The body of the per-item [try] (lines 127-160). *)
Definition item_try (i : nat) (file : UploadedFile) : M unit :=
  data <- await_axios_post (item_call i file) ;;
  predictions <- lift (get_prop data "predictions") ;;
  stamped <- lift (array_map (stamp i (item_name i file))
                             (js_or predictions (VArr []))) ;;
  image <- lift (get_prop data "image") ;;
  push_result
    (VObj [("imageIndex", VNum (Z.of_nat i));
           ("imageName", VStr (item_name i file));
           ("predictions", stamped);
           ("image_width", js_or (get_opt image "width") VNull);
           ("image_height", js_or (get_opt image "height") VNull)]).

(** The per-item [catch (error)] (lines 161-170); the line written to the
    console is left out. *)
Definition item_catch (i : nat) (file : UploadedFile) (error : js_error)
  : M unit :=
  push_result
    (VObj [("imageIndex", VNum (Z.of_nat i));
           ("imageName", VStr (item_name i file));
           ("error", js_or (err_message error)
                           (VStr "Failed to process image"));
           ("predictions", VArr [])]).

(** One turn of the loop. *)
Definition process_item (i : nat) (file : UploadedFile) : M unit :=
  try_catch (item_try i file) (item_catch i file).

(** [for (let i = 0; i < files.length; i++)], entered at index [i] with the
    files from [i] on. *)
Fixpoint process_from (i : nat) (files : list UploadedFile) : M unit :=
  match files with
  | [] => ret tt
  | file :: rest => process_item i file ;; process_from (S i) rest
  end.

(** [!KEY] on a string *)
Definition is_empty (s : string) : bool := s =? EmptyString.

Definition api_unconfigured : bool :=
  (ROBOFLOW_API_KEY =? "YOUR_KEY_HERE")
  || (ROBOFLOW_MODEL_ID =? "YOUR_MODEL_ID_HERE")
  || is_empty ROBOFLOW_API_KEY || is_empty ROBOFLOW_MODEL_ID.

(** [req.files || (req.file ? [req.file] : [])]; the result is always an
    array, so that [!files || files.length === 0] tests its length. *)
Definition request_files (req : express_req) : list UploadedFile :=
  match req_files req with
  | Some files => files
  | None => match req_file req with
            | Some f => [f]
            | None => []
            end
  end.

(** The body of the outer [try] (lines 99-184). *)
Definition analyze_try (req : express_req) : M http_response :=
  let files := request_files req in
  if (List.length files =? 0)%nat then
    ret (res_status_json (VNum 400)
           [("error", VStr "No images provided");
            ("message", VStr "Please upload at least one image file")])
  else if api_unconfigured then
    ret (res_status_json (VNum 500)
           [("error", VStr "API not configured");
            ("message", VStr "Please set ROBOFLOW_API_KEY and ROBOFLOW_MODEL_ID in your .env file")])
  else
    area <- lift (get_prop (req_body req) "area") ;;
    let selectedArea := js_or area (VStr "unknown") in
    new_results ;;
    process_from 0 files ;;
    rs <- get_results ;;
    allPredictions <- lift (flatMap predictions_or_empty rs) ;;
    ret (res_json
           [("success", VBool true);
            ("area", selectedArea);
            ("results", VArr rs);
            ("predictions", VArr allPredictions);
            ("image_count", VNum (Z.of_nat (List.length rs)));
            ("total_defects", VNum (Z.of_nat (List.length allPredictions)))]).

(** The async handler of POST /api/analyze (lines 97-233); a throw inside
    the outer catch leaves the handler. *)
Definition analyze_handler (req : express_req) : M http_response :=
  try_catch (analyze_try req) (fun error => lift (request_catch error)).

(** POST /api/analyze: the upload middleware, then the handler. *)
Definition post_analyze (r : http_request) : M http_response :=
  let (err, req) := upload_any r in
  match upload_callback err with
  | Responded resp => ret resp
  | Next => analyze_handler req
  | NextError e => ret (error_middleware e)
  end.

(** A request served from a fresh state: the reply (or an escaped throw)
    and the outbound calls that were made. *)
Definition serve (r : http_request)
  : completion http_response * list outbound_call :=
  let (c, st) := post_analyze r initial_state in (c, calls st).

(* --------------------------------------------------------------------- *)
(** *** Vocabulary of the specification *)

(** The provider's detection list of a reply, when the success branch can
    read one: the reply is neither null nor undefined and its [predictions]
    field is an array or falsy. *)
Definition reply_detections (data : value) : option (list value) :=
  if nullish data then None
  else match js_or (member data "predictions") (VArr []) with
       | VArr l => Some l
       | _ => None
       end.

(** The TypeError raised in the success branch otherwise. *)
Definition extraction_error (data : value) : js_error :=
  if nullish data
  then new_TypeError ("Cannot read properties of " ++ to_js_string data ++
                      " (reading 'predictions')")
  else new_TypeError "(intermediate value).map is not a function".

(** A Success outcome. *)
Definition success_entry (i : nat) (file : UploadedFile) (data : value)
  (l : list value) : value :=
  VObj [("imageIndex", VNum (Z.of_nat i));
        ("imageName", VStr (item_name i file));
        ("predictions", VArr (map (stamp i (item_name i file)) l));
        ("image_width", js_or (get_opt (member data "image") "width") VNull);
        ("image_height",
         js_or (get_opt (member data "image") "height") VNull)].

(** A Failure outcome. *)
Definition failure_entry (i : nat) (file : UploadedFile) (error : js_error)
  : value :=
  VObj [("imageIndex", VNum (Z.of_nat i));
        ("imageName", VStr (item_name i file));
        ("error", js_or (err_message error) (VStr "Failed to process image"));
        ("predictions", VArr [])].

(** The outcome of item [i] for a given behaviour of its remote call. *)
Definition item_outcome (i : nat) (file : UploadedFile) (r : axios_result)
  : value :=
  match r with
  | Rejected e => failure_entry i file e
  | Resolved data =>
      match reply_detections data with
      | Some l => success_entry i file data l
      | None => failure_entry i file (extraction_error data)
      end
  end.

(** The remote call of an item fails: the promise rejects, or the reply
    cannot be read. *)
Definition call_fails (r : axios_result) : bool :=
  match r with
  | Rejected _ => true
  | Resolved data =>
      match reply_detections data with Some _ => false | None => true end
  end.

(** Outcomes and calls of the loop entered at index [i] when [n] calls were
    made before. *)
Fixpoint outcomes_from (n i : nat) (files : list UploadedFile) : list value :=
  match files with
  | [] => []
  | file :: rest =>
      item_outcome i file (axios_post n (item_call i file))
        :: outcomes_from (S n) (S i) rest
  end.

Fixpoint calls_from (i : nat) (files : list UploadedFile)
  : list outbound_call :=
  match files with
  | [] => []
  | file :: rest => item_call i file :: calls_from (S i) rest
  end.

(** Number of items of the loop whose remote call fails. *)
Fixpoint failed_calls (n i : nat) (files : list UploadedFile) : nat :=
  match files with
  | [] => 0
  | file :: rest =>
      (if call_fails (axios_post n (item_call i file)) then 1 else 0)
      + failed_calls (S n) (S i) rest
  end.

End Server.

(** An entry of [results] is a Failure outcome when it carries [error]. *)
Definition is_failure (entry : value) : bool :=
  match entry with
  | VObj fields =>
      match lookup "error" fields with Some _ => true | None => false end
  | _ => false
  end.

Definition is_success (entry : value) : bool := negb (is_failure entry).

(** The detection list of an entry of [results]. *)
Definition entry_predictions (entry : value) : list value :=
  match member entry "predictions" with
  | VArr l => l
  | _ => []
  end.

(** A file the upload middleware accepts and attaches: it has a name, an
    image type and fewer bytes than the limit. *)
Definition valid_part (p : file_part) : Prop :=
  part_filename p <> EmptyString /\
  is_image_type (part_mimetype p) = true /\
  (byteLength (part_data p) < fileSize_limit)%N.

(** A file with a name, the only kind the middleware looks at. *)
Definition named (p : file_part) : bool :=
  negb (part_filename p =? EmptyString).

(** A file that does not end the upload: it is accepted, or it has no name
    and is let through. *)
Definition passes_upload (p : file_part) : Prop :=
  part_filename p = EmptyString \/ valid_part p.

(** The 200 reply for an [area] and a list of outcomes (lines 173-184). *)
Definition analysis_reply (area : value) (rs : list value) : http_response :=
  res_json
    [("success", VBool true);
     ("area", area);
     ("results", VArr rs);
     ("predictions", VArr (List.concat (map entry_predictions rs)));
     ("image_count", VNum (Z.of_nat (List.length rs)));
     ("total_defects",
      VNum (Z.of_nat (List.length
                        (List.concat (map entry_predictions rs)))))].

(** The files attached to a request. *)
Definition attached_files (r : http_request) : list file_part :=
  if multipart r then file_parts r else [].

(** The expected shape of a reply: an object whose [predictions], when
    present, is an array and whose [image], when present, is an object. *)
Definition well_formed_reply (data : value) : bool :=
  match data with
  | VObj fields =>
      match lookup "predictions" fields with
      | None | Some (VArr _) => true
      | Some _ => false
      end
      && match lookup "image" fields with
         | None | Some (VObj _) => true
         | Some _ => false
         end
  | _ => false
  end.

(* --------------------------------------------------------------------- *)
(** *** Sample data *)

Definition sample_env : environment :=
  mkEnv (Some "rf_secret") (Some "wing-defects/3").

Definition png_part (name : string) (bytes : N) : file_part :=
  mkPart "images" name "image/png" (mkBuffer bytes 0).

Definition text_part (name : string) (bytes : N) : file_part :=
  mkPart "images" name "text/plain" (mkBuffer bytes 0).

Definition timeout_error : js_error :=
  mkError AxiosError (VStr "timeout of 5000ms exceeded")
          (VStr "ECONNABORTED") None.

Definition forbidden_error : js_error :=
  mkError AxiosError (VStr "Request failed with status code 403")
          (VStr "ERR_BAD_REQUEST")
          (Some (mkErrorResponse (VNum 403) (VStr "Forbidden")
                   (VObj [("message", VStr "Forbidden")]))).

Definition dent : value :=
  VObj [("class", VStr "dent"); ("confidence", VNum 1); ("x", VNum 12)].

Definition crack : value :=
  VObj [("class", VStr "crack"); ("confidence", VNum 1); ("x", VNum 40)].

Definition two_detections : value :=
  VObj [("predictions", VArr [dent; crack]);
        ("image", VObj [("width", VNum 640); ("height", VNum 480)])].

(** A service whose first call times out and whose later calls succeed. *)
Definition first_call_times_out (n : nat) (c : outbound_call)
  : axios_result :=
  match n with
  | 0 => Rejected timeout_error
  | _ => Resolved two_detections
  end.

(** A service that answers every call with a page of text. *)
Definition answers_html (n : nat) (c : outbound_call) : axios_result :=
  Resolved (VStr "<html>Bad Gateway</html>").

Definition two_images : http_request :=
  mkRequest true [png_part "left.png" 2048; png_part "right.png" 4096]
            [("area", VStr "wing")] VUndefined.

Definition no_files_at_all : http_request :=
  mkRequest false [] [] (VObj []).

(** An image of 10 MiB + 1 byte followed by a small text file. *)
Definition big_image_then_text : http_request :=
  mkRequest true [png_part "hangar.png" 10485761; text_part "notes.txt" 20]
            [] VUndefined.

(** A single text file of 10 MiB + 1 byte. *)
Definition big_text_file : http_request :=
  mkRequest true [text_part "dump.txt" 10485761] [] VUndefined.

Definition one_big_image : http_request :=
  mkRequest true [png_part "left.png" 2048; png_part "hangar.png" 10485761]
            [] VUndefined.

Definition image_and_text : http_request :=
  mkRequest true [png_part "left.png" 2048; text_part "notes.txt" 20]
            [] VUndefined.

(** A variable of the environment that leaves the placeholder in place, or
    is the placeholder itself. *)
Definition unset_or_placeholder (x : option string) (placeholder : string)
  : Prop :=
  x = None \/ x = Some EmptyString \/ x = Some placeholder.

Definition has_type_outside_image (p : file_part) : Prop :=
  is_image_type (part_mimetype p) = false.

Definition exceeds_limit (p : file_part) : Prop :=
  (fileSize_limit < byteLength (part_data p))%N.

(** A named file of another type, and a named image that is not smaller
    than the limit: the two ways a file ends the upload. *)
Definition refused_for_type (p : file_part) : Prop :=
  part_filename p <> EmptyString /\ has_type_outside_image p.

Definition refused_for_size (p : file_part) : Prop :=
  part_filename p <> EmptyString /\
  is_image_type (part_mimetype p) = true /\
  (fileSize_limit <= byteLength (part_data p))%N.

(** A named file with more bytes than the limit. *)
Definition oversized_file (p : file_part) : Prop :=
  part_filename p <> EmptyString /\ exceeds_limit p.


(** A service that refuses every call with 403. *)
Definition always_forbidden (n : nat) (c : outbound_call) : axios_result :=
  Rejected forbidden_error.

(** Replies with no metadata, and with a width and height of 0. *)
Definition reply_without_image : value :=
  VObj [("predictions", VArr [dent])].

Definition reply_with_zero_size : value :=
  VObj [("predictions", VArr [dent]);
        ("image", VObj [("width", VNum 0); ("height", VNum 0)])].

Definition answers_without_image (n : nat) (c : outbound_call)
  : axios_result := Resolved reply_without_image.

Definition answers_with_zero_size (n : nat) (c : outbound_call)
  : axios_result := Resolved reply_with_zero_size.


(** The errors of the upload middleware and the fixed replies. *)
Definition type_error : js_error := new_Error "Only image files are allowed".

Definition size_error : js_error :=
  new_MulterError "LIMIT_FILE_SIZE" "File too large".

Definition invalid_type_response : http_response :=
  res_status_json (VNum 400)
    [("error", VStr "Invalid file type");
     ("message", VStr "Only image files are allowed")].

Definition too_large_response : http_response :=
  res_status_json (VNum 400)
    [("error", VStr "File too large");
     ("message", VStr "Image must be less than 10MB")].

Definition no_images_response : http_response :=
  res_status_json (VNum 400)
    [("error", VStr "No images provided");
     ("message", VStr "Please upload at least one image file")].

Definition not_configured_response : http_response :=
  res_status_json (VNum 500)
    [("error", VStr "API not configured");
     ("message", VStr "Please set ROBOFLOW_API_KEY and ROBOFLOW_MODEL_ID in your .env file")].

(* --------------------------------------------------------------------- *)
(** *** The route for any result of the upload middleware *)

(** What POST /api/analyze does once the upload middleware has called back
    with [err] and left the request [req] (lines 67-97 and 243-250):
    [post_analyze] is this route after [upload_any]. *)
Definition analyze_route (env : environment)
  (axios_post : nat -> outbound_call -> axios_result)
  (err : option js_error) (req : express_req) : M http_response :=
  match upload_callback err with
  | Responded resp => ret resp
  | Next => analyze_handler env axios_post req
  | NextError e => ret (error_middleware e)
  end.

(** The two properties the server sets on a detection. *)
Definition provenance_key (k : string) : bool :=
  (k =? "imageIndex") || (k =? "imageName").

(** A credential or model identifier that counts as configured. *)
Definition usable_setting (x : option string) (placeholder : string)
  (s : string) : Prop :=
  x = Some s /\ s <> EmptyString /\ s <> placeholder.

(** A dimension as an outcome reports it: null, or the provider's truthy
    value. *)
Definition reported_dimension (v : value) : Prop :=
  v = VNull \/ truthy v = true.

(** A JSON body posted without any file. *)
Definition json_post : http_request :=
  mkRequest false [] [] (VObj [("area", VStr "wing")]).

(** Two named images sent with an empty [area]. *)
Definition named_pair : http_request :=
  mkRequest true [png_part "nose.png" 2048; png_part "tail.png" 1]
            [("area", VStr EmptyString)] VUndefined.

(** A configuration that still has the placeholder of the model. *)
Definition placeholder_env : environment :=
  mkEnv (Some "rf_secret") (Some "YOUR_MODEL_ID_HERE").



(** Replies of the provider used below. *)
Definition one_detection : value :=
  VObj [("predictions", VArr [dent]);
        ("image", VObj [("width", VNum 640); ("height", VNum 480)])].

Definition answers_one_detection (n : nat) (c : outbound_call)
  : axios_result := Resolved one_detection.

Definition disk_error : js_error :=
  mkError PlainError (VStr "Unexpected end of form") VUndefined None.

Definition too_many_parts : js_error :=
  new_MulterError "LIMIT_PART_COUNT" "Too many parts".

(** Closed instances of the upload checks. *)
Ltac valid_now := repeat split; vm_compute; congruence.
Ltac all_pass :=
  repeat (apply Forall_cons; [right; valid_now|]); apply Forall_nil.

(* ===================================================================== *)
(** ** Properties of values and objects *)
(* ===================================================================== *)

Local Open Scope list_scope.

Lemma lookup_obj_set_same (k : string) (v : value) fields :
  lookup k (obj_set k v fields) = Some v.
Proof.
  induction fields as [|[k' v'] rest IH]; simpl.
  - now rewrite String.eqb_refl.
  - destruct (k' =? k) eqn:E; simpl; rewrite E; auto.
Qed.

Lemma lookup_obj_set_other (k k' : string) (v : value) fields :
  k <> k' -> lookup k' (obj_set k v fields) = lookup k' fields.
Proof.
  intros Hne.
  induction fields as [|[k0 v0] rest IH]; simpl.
  - destruct (k =? k') eqn:E; auto.
    apply String.eqb_eq in E. contradiction.
  - destruct (k0 =? k) eqn:E; simpl.
    + apply String.eqb_eq in E. subst k0.
      destruct (k =? k') eqn:E'; auto.
      apply String.eqb_eq in E'. contradiction.
    + now rewrite IH.
Qed.

(** A stamped detection carries the index and the name it was stamped
    with, whatever the provider put under these keys. *)
Lemma stamp_imageIndex (i : nat) (name : string) (p : value) :
  member (stamp i name p) "imageIndex" = VNum (Z.of_nat i).
Proof.
  unfold stamp, member.
  rewrite lookup_obj_set_other by discriminate.
  now rewrite lookup_obj_set_same.
Qed.

Lemma stamp_imageName (i : nat) (name : string) (p : value) :
  member (stamp i name p) "imageName" = VStr name.
Proof.
  unfold stamp, member. now rewrite lookup_obj_set_same.
Qed.

(** The stamp keeps every other property of the detection. *)
Lemma stamp_keeps (i : nat) (name k : string) (p : value) :
  k <> "imageIndex" -> k <> "imageName" ->
  member (stamp i name p) k = member (VObj (spread p)) k.
Proof.
  intros H1 H2. unfold stamp, member.
  rewrite !lookup_obj_set_other by congruence. reflexivity.
Qed.

Lemma js_or_truthy (a b : value) :
  truthy b = true -> truthy (js_or a b) = true.
Proof.
  intros Hb. unfold js_or. destruct (truthy a) eqn:E; auto.
Qed.

Lemma js_or_falsy (a b : value) :
  truthy a = false -> js_or a b = b.
Proof.
  intros H. unfold js_or. now rewrite H.
Qed.

(* ===================================================================== *)
(** ** The per-item dispatch *)
(* ===================================================================== *)

Section Dispatch.

Variable env : environment.
Variable axios_post : nat -> outbound_call -> axios_result.

(** One turn of the loop never throws; it makes one call and pushes the one
    outcome of that call. *)
Lemma process_item_run (i : nat) (file : UploadedFile) (st : req_state) :
  process_item env axios_post i file st =
  (Normal tt,
   mkState
     (results st ++
      [item_outcome i file
         (axios_post (List.length (calls st)) (item_call env i file))])
     (calls st ++ [item_call env i file])).
Proof.
  unfold process_item, try_catch, item_try, bind, await_axios_post.
  destruct (axios_post _ _) as [data|e]; simpl.
  - unfold lift, get_prop, reply_detections.
    destruct (nullish data) eqn:Hn; simpl.
    + unfold extraction_error. rewrite Hn. reflexivity.
    + unfold extraction_error. rewrite Hn.
      destruct (js_or (member data "predictions") (VArr [])); reflexivity.
  - reflexivity.
Qed.

Lemma process_from_run (files : list UploadedFile) :
  forall (i : nat) (st : req_state),
    process_from env axios_post i files st =
    (Normal tt,
     mkState
       (results st ++
        outcomes_from env axios_post (List.length (calls st)) i files)
       (calls st ++ calls_from env i files)).
Proof.
  induction files as [|file rest IH]; intros i st; simpl.
  - unfold ret. rewrite !app_nil_r. now destruct st.
  - unfold bind. rewrite process_item_run, IH. simpl.
    rewrite length_app. simpl. rewrite Nat.add_1_r.
    now rewrite <- !app_assoc.
Qed.

Lemma outcomes_from_length (files : list UploadedFile) :
  forall n i, List.length (outcomes_from env axios_post n i files)
              = List.length files.
Proof.
  induction files; intros; simpl; auto.
Qed.

Lemma calls_from_length (files : list UploadedFile) :
  forall i, List.length (calls_from env i files) = List.length files.
Proof.
  induction files; intros; simpl; auto.
Qed.

(** The [k]-th outcome is the outcome of the [k]-th file. *)
Lemma outcomes_from_nth (files : list UploadedFile) :
  forall n i k file,
    nth_error files k = Some file ->
    nth_error (outcomes_from env axios_post n i files) k =
    Some (item_outcome (i + k) file
            (axios_post (n + k) (item_call env (i + k) file))).
Proof.
  induction files as [|f rest IH]; intros n i k file Hk.
  - destruct k; discriminate.
  - destruct k as [|k]; simpl in *.
    + injection Hk as ->. now rewrite !Nat.add_0_r.
    + rewrite (IH (S n) (S i) k file Hk).
      now rewrite !Nat.add_succ_r.
Qed.

End Dispatch.

(* ===================================================================== *)
(** ** Outcomes and their aggregation *)
(* ===================================================================== *)

Lemma item_outcome_is_failure (i : nat) (file : UploadedFile)
  (r : axios_result) :
  is_failure (item_outcome i file r) = call_fails r.
Proof.
  destruct r as [data|e]; simpl; auto.
  destruct (reply_detections data); reflexivity.
Qed.

Lemma item_outcome_predictions (i : nat) (file : UploadedFile)
  (r : axios_result) :
  member (item_outcome i file r) "predictions"
  = VArr (entry_predictions (item_outcome i file r)).
Proof.
  destruct r as [data|e]; simpl; auto.
  destruct (reply_detections data); reflexivity.
Qed.

Lemma failed_item_predictions (i : nat) (file : UploadedFile)
  (r : axios_result) :
  call_fails r = true -> entry_predictions (item_outcome i file r) = [].
Proof.
  destruct r as [data|e]; simpl; auto.
  destruct (reply_detections data); [discriminate | reflexivity].
Qed.

Lemma good_item_predictions (i : nat) (file : UploadedFile) (data : value)
  (l : list value) :
  reply_detections data = Some l ->
  entry_predictions (item_outcome i file (Resolved data))
  = map (stamp i (item_name i file)) l.
Proof.
  intros H. simpl. now rewrite H.
Qed.

Lemma item_outcome_imageIndex (i : nat) (file : UploadedFile)
  (r : axios_result) :
  member (item_outcome i file r) "imageIndex" = VNum (Z.of_nat i).
Proof.
  destruct r as [data|e]; simpl; auto.
  destruct (reply_detections data); reflexivity.
Qed.

Lemma item_outcome_imageName (i : nat) (file : UploadedFile)
  (r : axios_result) :
  member (item_outcome i file r) "imageName" = VStr (item_name i file).
Proof.
  destruct r as [data|e]; simpl; auto.
  destruct (reply_detections data); reflexivity.
Qed.

Lemma predictions_or_empty_outcome (i : nat) (file : UploadedFile)
  (r : axios_result) :
  predictions_or_empty (item_outcome i file r)
  = Normal (VArr (entry_predictions (item_outcome i file r))).
Proof.
  unfold predictions_or_empty, get_prop.
  replace (nullish (item_outcome i file r)) with false.
  - now rewrite item_outcome_predictions.
  - destruct r as [data|e]; simpl; auto.
    destruct (reply_detections data); reflexivity.
Qed.

Section Aggregation.

Variable env : environment.
Variable axios_post : nat -> outbound_call -> axios_result.

(** The flattened list is the concatenation of the entries' lists. *)
Lemma flatMap_outcomes (files : list UploadedFile) :
  forall n i,
    flatMap predictions_or_empty (outcomes_from env axios_post n i files)
    = Normal (List.concat (map entry_predictions
                          (outcomes_from env axios_post n i files))).
Proof.
  induction files as [|file rest IH]; intros n i; simpl; auto.
  now rewrite predictions_or_empty_outcome, IH.
Qed.

(** Failure outcomes add nothing to it. *)
Lemma successes_only (files : list UploadedFile) :
  forall n i,
    List.concat (map entry_predictions (outcomes_from env axios_post n i files))
    = List.concat (map entry_predictions
                (filter is_success (outcomes_from env axios_post n i files))).
Proof.
  induction files as [|file rest IH]; intros n i; simpl; auto.
  unfold is_success at 1. rewrite item_outcome_is_failure.
  destruct (call_fails _) eqn:E; simpl.
  - rewrite failed_item_predictions by exact E. simpl. apply IH.
  - f_equal. apply IH.
Qed.

(** As many Failure outcomes as failed calls. *)
Lemma failures_counted (files : list UploadedFile) :
  forall n i,
    List.length (filter is_failure (outcomes_from env axios_post n i files))
    = failed_calls env axios_post n i files.
Proof.
  induction files as [|file rest IH]; intros n i; simpl; auto.
  rewrite item_outcome_is_failure.
  destruct (call_fails _); simpl; now rewrite IH.
Qed.

Lemma failed_calls_le (files : list UploadedFile) :
  forall n i,
    failed_calls env axios_post n i files <= List.length files.
Proof.
  induction files as [|file rest IH]; intros n i; simpl; auto.
  specialize (IH (S n) (S i)).
  destruct (call_fails _); simpl; lia.
Qed.

(** The handler on a request that passes both checks. *)
Lemma analyze_handler_run (req : express_req) (st : req_state) :
  request_files req <> [] ->
  api_unconfigured env = false ->
  nullish (req_body req) = false ->
  let rs := outcomes_from env axios_post (List.length (calls st)) 0
              (request_files req) in
  let all := List.concat (map entry_predictions rs) in
  analyze_handler env axios_post req st =
  (Normal (res_json
     [("success", VBool true);
      ("area", js_or (member (req_body req) "area") (VStr "unknown"));
      ("results", VArr rs);
      ("predictions", VArr all);
      ("image_count", VNum (Z.of_nat (List.length rs)));
      ("total_defects", VNum (Z.of_nat (List.length all)))]),
   mkState rs (calls st ++ calls_from env 0 (request_files req))).
Proof.
  intros Hfiles Hcfg Hbody rs all.
  unfold analyze_handler, try_catch, analyze_try.
  destruct (request_files req) as [|f fs] eqn:Hf; [contradiction|].
  cbn [List.length Nat.eqb]. rewrite Hcfg.
  unfold bind, lift, get_prop. rewrite Hbody.
  unfold new_results. rewrite process_from_run.
  cbn [results calls app get_results].
  fold rs. unfold rs at 1. rewrite flatMap_outcomes. fold rs. fold all.
  reflexivity.
Qed.

End Aggregation.

(* ===================================================================== *)
Lemma calls_from_nth (env : environment) (files : list UploadedFile) :
  forall i k file,
    nth_error files k = Some file ->
    nth_error (calls_from env i files) k = Some (item_call env (i + k) file).
Proof.
  induction files as [|f rest IH]; intros i k file Hk.
  - destruct k; discriminate.
  - destruct k as [|k]; simpl in *.
    + injection Hk as ->. now rewrite Nat.add_0_r.
    + rewrite (IH (S i) k file Hk). now rewrite Nat.add_succ_r.
Qed.

(* ===================================================================== *)
(** ** The upload middleware *)
(* ===================================================================== *)

Lemma valid_is_named (p : file_part) :
  valid_part p -> (part_filename p =? EmptyString) = false.
Proof.
  intros (Hn & _). now apply String.eqb_neq.
Qed.

Lemma valid_passes (p : file_part) : valid_part p -> passes_upload p.
Proof. intros H. now right. Qed.

Lemma filter_named_valid (parts : list file_part) :
  Forall valid_part parts -> filter named parts = parts.
Proof.
  induction 1 as [|p rest Hp _ IH]; simpl; auto.
  unfold named at 1. rewrite (valid_is_named p Hp). simpl. now rewrite IH.
Qed.

(** Files that all pass are attached, those without a name left out. *)
Lemma receive_passes (parts : list file_part) :
  Forall passes_upload parts ->
  forall acc,
    receive_parts parts acc
    = inr (acc ++ map stored_file (filter named parts)).
Proof.
  induction 1 as [|p rest Hp _ IH]; intros acc; simpl.
  - now rewrite app_nil_r.
  - destruct Hp as [Hn|Hv].
    + unfold named at 1. rewrite Hn. simpl. apply IH.
    + unfold named at 1. rewrite (valid_is_named p Hv). simpl.
      destruct Hv as (_ & Hty & Hsz).
      unfold fileFilter. rewrite Hty.
      apply N.leb_gt in Hsz. rewrite Hsz, IH.
      now rewrite <- app_assoc.
Qed.

Lemma receive_valid (parts : list file_part) :
  Forall valid_part parts ->
  forall acc, receive_parts parts acc = inr (acc ++ map stored_file parts).
Proof.
  intros Hv acc.
  rewrite receive_passes.
  - now rewrite (filter_named_valid _ Hv).
  - eapply Forall_impl; [|exact Hv]. apply valid_passes.
Qed.

(** The first file that does not pass decides the error. *)
Lemma receive_first_bad_type (pre post : list file_part) (p : file_part) :
  Forall passes_upload pre ->
  refused_for_type p ->
  forall acc, receive_parts (pre ++ p :: post) acc = inl type_error.
Proof.
  induction 1 as [|q rest Hq _ IH]; intros Hp acc; simpl.
  - destruct Hp as (Hn & Hty). apply String.eqb_neq in Hn. rewrite Hn.
    unfold fileFilter. unfold has_type_outside_image in Hty.
    now rewrite Hty.
  - destruct Hq as [Hn|Hv].
    + rewrite Hn. simpl. now apply IH.
    + rewrite (valid_is_named q Hv). destruct Hv as (_ & Hty & Hsz).
      unfold fileFilter. rewrite Hty.
      apply N.leb_gt in Hsz. rewrite Hsz. now apply IH.
Qed.

Lemma receive_first_too_large (pre post : list file_part) (p : file_part) :
  Forall passes_upload pre ->
  refused_for_size p ->
  forall acc, receive_parts (pre ++ p :: post) acc = inl size_error.
Proof.
  induction 1 as [|q rest Hq _ IH]; intros Hp acc; simpl.
  - destruct Hp as (Hn & Hty & Hsz). apply String.eqb_neq in Hn.
    rewrite Hn. unfold fileFilter. rewrite Hty.
    apply N.leb_le in Hsz. now rewrite Hsz.
  - destruct Hq as [Hn|Hv].
    + rewrite Hn. simpl. now apply IH.
    + rewrite (valid_is_named q Hv). destruct Hv as (_ & Hty & Hsz).
      unfold fileFilter. rewrite Hty.
      apply N.leb_gt in Hsz. rewrite Hsz. now apply IH.
Qed.

(** A file passes, or is refused for its type, or for its size. *)
Lemma passes_or_refused (p : file_part) :
  {passes_upload p} + {refused_for_type p} + {refused_for_size p}.
Proof.
  unfold passes_upload, refused_for_type, refused_for_size, valid_part,
    has_type_outside_image.
  destruct (string_dec (part_filename p) EmptyString) as [Hn|Hn].
  { left. left. now left. }
  destruct (is_image_type (part_mimetype p)) eqn:Hty.
  2:{ left. right. now split. }
  destruct (fileSize_limit <=? byteLength (part_data p))%N eqn:Hsz.
  - right. repeat split; auto. now apply N.leb_le.
  - left. left. right. repeat split; auto. now apply N.leb_gt.
Defined.

Lemma refused_not_passes (p : file_part) :
  refused_for_type p \/ refused_for_size p -> ~ passes_upload p.
Proof.
  unfold refused_for_type, refused_for_size, has_type_outside_image.
  intros [(Hn & Hty)|(Hn & Hty & Hsz)] [He|(_ & Hty' & Hsz')];
    try contradiction; try congruence. lia.
Qed.

Lemma passes_dec (p : file_part) : {passes_upload p} + {~ passes_upload p}.
Proof.
  destruct (passes_or_refused p) as [[H|H]|H]; [now left| |];
    right; apply refused_not_passes; auto.
Defined.

(** A body with a file that does not pass splits at the first such file. *)
Lemma first_refused (parts : list file_part) :
  Exists (fun p => ~ passes_upload p) parts ->
  exists pre p post,
    parts = pre ++ p :: post /\
    Forall passes_upload pre /\
    (refused_for_type p \/ refused_for_size p).
Proof.
  induction parts as [|q rest IH]; intros Hex.
  - inversion Hex.
  - destruct (passes_or_refused q) as [[Hq|Hq]|Hq].
    + destruct IH as (pre & p & post & -> & Hpre & Hp).
      { inversion Hex; subst; [contradiction | assumption]. }
      exists (q :: pre), p, post. repeat split; auto.
    + exists [], q, rest. repeat split; auto.
    + exists [], q, rest. repeat split; auto.
Qed.

Lemma receive_rejects (parts : list file_part) :
  Exists (fun p => ~ passes_upload p) parts ->
  forall acc,
    receive_parts parts acc = inl type_error \/
    receive_parts parts acc = inl size_error.
Proof.
  intros Hex acc.
  destruct (first_refused parts Hex) as (pre & p & post & -> & Hpre & [H|H]).
  - left. now apply receive_first_bad_type.
  - right. now apply receive_first_too_large.
Qed.

Lemma upload_callback_type_error :
  upload_callback (Some type_error) = Responded invalid_type_response.
Proof. reflexivity. Qed.

Lemma upload_callback_size_error :
  upload_callback (Some size_error) = Responded too_large_response.
Proof. reflexivity. Qed.

Lemma list_eq_dec_nil {A : Type} (l : list A) : {l = []} + {l <> []}.
Proof.
  destruct l; [now left | right; discriminate].
Defined.

(* ===================================================================== *)
(** ** The endpoint *)
(* ===================================================================== *)

Section Endpoint.

Variable env : environment.
Variable axios_post : nat -> outbound_call -> axios_result.

Lemma serve_type_error (r : http_request) :
  multipart r = true ->
  receive_parts (file_parts r) [] = inl type_error ->
  serve env axios_post r = (Normal invalid_type_response, []).
Proof.
  intros Hm He. unfold serve, post_analyze, upload_any.
  now rewrite Hm, He.
Qed.

Lemma serve_size_error (r : http_request) :
  multipart r = true ->
  receive_parts (file_parts r) [] = inl size_error ->
  serve env axios_post r = (Normal too_large_response, []).
Proof.
  intros Hm He. unfold serve, post_analyze, upload_any.
  now rewrite Hm, He.
Qed.

Lemma serve_no_files (r : http_request) :
  attached_files r = [] ->
  serve env axios_post r = (Normal no_images_response, []).
Proof.
  unfold attached_files, serve, post_analyze, upload_any.
  destruct (multipart r).
  - intros ->. reflexivity.
  - intros _. reflexivity.
Qed.

(** A request whose files all pass, for the files that are attached. *)
Lemma serve_delivered (r : http_request) :
  multipart r = true ->
  Forall passes_upload (file_parts r) ->
  let files := map stored_file (filter named (file_parts r)) in
  (files = [] ->
   serve env axios_post r = (Normal no_images_response, []))
  /\
  (files <> [] -> api_unconfigured env = true ->
   serve env axios_post r = (Normal not_configured_response, []))
  /\
  (files <> [] -> api_unconfigured env = false ->
   serve env axios_post r =
   (Normal (analysis_reply
              (js_or (member (VObj (form_fields r)) "area") (VStr "unknown"))
              (outcomes_from env axios_post 0 0 files)),
    calls_from env 0 files)).
Proof.
  intros Hm Hp files.
  assert (Hup : upload_any r
                = (None, mkReq (Some files) None (VObj (form_fields r)))).
  { unfold upload_any. now rewrite Hm, (receive_passes _ Hp). }
  unfold serve, post_analyze. rewrite Hup. cbn [upload_callback].
  split; [|split].
  - intros Hnil. unfold analyze_handler, try_catch, analyze_try.
    cbn [request_files req_files]. now rewrite Hnil.
  - intros Hne Hcfg. unfold analyze_handler, try_catch, analyze_try.
    cbn [request_files req_files].
    destruct files as [|f fs]; [contradiction|]. simpl. now rewrite Hcfg.
  - intros Hne Hcfg.
    rewrite analyze_handler_run; cbn [request_files req_files req_body];
      auto.
Qed.

Lemma serve_not_configured (r : http_request) :
  multipart r = true ->
  file_parts r <> [] ->
  Forall valid_part (file_parts r) ->
  api_unconfigured env = true ->
  serve env axios_post r = (Normal not_configured_response, []).
Proof.
  intros Hm Hne Hv Hcfg.
  destruct (serve_delivered r Hm) as (_ & H & _).
  { eapply Forall_impl; [|exact Hv]. apply valid_passes. }
  apply H; auto. rewrite (filter_named_valid _ Hv).
  intros Hmap. apply Hne. now apply map_eq_nil in Hmap.
Qed.

(** A request whose files are all accepted, with the service configured. *)
Lemma serve_accepted (r : http_request) :
  multipart r = true ->
  file_parts r <> [] ->
  Forall valid_part (file_parts r) ->
  api_unconfigured env = false ->
  let files := map stored_file (file_parts r) in
  let rs := outcomes_from env axios_post 0 0 files in
  let all := List.concat (map entry_predictions rs) in
  serve env axios_post r =
  (Normal (res_json
     [("success", VBool true);
      ("area", js_or (member (VObj (form_fields r)) "area") (VStr "unknown"));
      ("results", VArr rs);
      ("predictions", VArr all);
      ("image_count", VNum (Z.of_nat (List.length rs)));
      ("total_defects", VNum (Z.of_nat (List.length all)))]),
   calls_from env 0 files).
Proof.
  intros Hm Hne Hv Hcfg files rs all.
  unfold serve, post_analyze, upload_any.
  rewrite Hm, (receive_valid _ Hv). cbn [app upload_callback].
  rewrite analyze_handler_run; cbn [request_files req_files req_body];
    auto.
  intros Hmap. apply Hne. now apply map_eq_nil in Hmap.
Qed.

End Endpoint.

(* ===================================================================== *)
(** ** Partial failure and aggregation *)
(* ===================================================================== *)

(** C1, as amended.  A request with N >= 1 valid image files, served with
    the remote service configured, is answered 200 with [success: true]
    whatever number M of the N remote calls fails: [results] has N entries,
    M of them Failure outcomes, [image_count] is N, [predictions] is the
    concatenation, in item order, of the detection lists of the Success
    entries, each of which is the provider's list of that item in the
    provider's order, stamped, and [total_defects] is the length of
    [predictions]. *)
Theorem analyze_partial_failure (env : environment)
  (axios_post : nat -> outbound_call -> axios_result) (r : http_request) :
  multipart r = true ->
  file_parts r <> [] ->
  Forall valid_part (file_parts r) ->
  api_unconfigured env = false ->
  let files := map stored_file (file_parts r) in
  let N := List.length (file_parts r) in
  let M := failed_calls env axios_post 0 0 files in
  exists (rs preds : list value) (area : value),
    fst (serve env axios_post r) =
      Normal (mkResponse (VNum 200)
        (VObj [("success", VBool true);
               ("area", area);
               ("results", VArr rs);
               ("predictions", VArr preds);
               ("image_count", VNum (Z.of_nat N));
               ("total_defects", VNum (Z.of_nat (List.length preds)))]))
    /\ List.length rs = N
    /\ M <= N
    /\ List.length (filter is_failure rs) = M
    /\ preds = List.concat (map entry_predictions (filter is_success rs))
    /\ (forall k file data l,
          nth_error files k = Some file ->
          axios_post k (item_call env k file) = Resolved data ->
          reply_detections data = Some l ->
          exists entry,
            nth_error rs k = Some entry /\
            is_success entry = true /\
            entry_predictions entry = map (stamp k (item_name k file)) l).
Proof.
  intros Hm Hne Hv Hcfg files N M.
  pose proof (serve_accepted env axios_post r Hm Hne Hv Hcfg) as Hrun.
  cbv zeta in Hrun. fold files in Hrun.
  assert (Hlen : List.length (outcomes_from env axios_post 0 0 files) = N).
  { rewrite outcomes_from_length. unfold files. apply length_map. }
  exists (outcomes_from env axios_post 0 0 files),
         (List.concat (map entry_predictions
                         (outcomes_from env axios_post 0 0 files))),
         (js_or (member (VObj (form_fields r)) "area") (VStr "unknown")).
  repeat split.
  - rewrite Hrun. cbn [fst]. unfold res_json. now rewrite Hlen.
  - exact Hlen.
  - unfold M, N. rewrite <- (length_map stored_file (file_parts r)).
    apply failed_calls_le.
  - apply failures_counted.
  - apply successes_only.
  - intros k file data l Hk Hcall Hl.
    exists (item_outcome k file (Resolved data)). repeat split.
    + rewrite (outcomes_from_nth env axios_post files 0 0 k file Hk).
      cbn [Nat.add]. now rewrite Hcall.
    + unfold is_success. rewrite item_outcome_is_failure. simpl.
      now rewrite Hl.
    + now apply good_item_predictions.
Qed.

Lemma analyze_partial_failure_witness :
  exists rs preds area,
    fst (serve sample_env first_call_times_out two_images) =
      Normal (mkResponse (VNum 200)
        (VObj [("success", VBool true);
               ("area", area);
               ("results", VArr rs);
               ("predictions", VArr preds);
               ("image_count", VNum 2);
               ("total_defects", VNum (Z.of_nat (List.length preds)))]))
    /\ List.length rs = 2
    /\ List.length preds = 2
    /\ List.length (filter is_failure rs) = 1.
Proof.
  destruct (analyze_partial_failure sample_env first_call_times_out
              two_images)
    as (rs & preds & area & Hresp & Hlen & _ & Hfail & Hpreds & Hitem).
  - reflexivity.
  - discriminate.
  - repeat constructor; vm_compute; congruence.
  - reflexivity.
  - exists rs, preds, area. repeat split; auto.
    vm_compute in Hresp. injection Hresp as _ _ Hp. now subst preds.
Defined.

(** C1 as stated fails without a configured service, and without a file:
    two valid images sent to a server that still has a placeholder are
    answered 500 with no remote call, and a body without files 400. *)
Lemma valid_images_need_configuration :
  Forall valid_part (file_parts two_images) /\
  serve placeholder_env first_call_times_out two_images =
    (Normal not_configured_response, []) /\
  status not_configured_response <> VNum 200 /\
  serve sample_env first_call_times_out (mkRequest true [] [] VUndefined) =
    (Normal no_images_response, []) /\
  status no_images_response <> VNum 200.
Proof.
  split; [|split; [|split; [|split]]].
  - repeat constructor; vm_compute; congruence.
  - reflexivity.
  - discriminate.
  - reflexivity.
  - discriminate.
Qed.

(* ===================================================================== *)
(** ** Per-item isolation *)
(* ===================================================================== *)

(** C2, as amended.  Dispatching an item never throws past the per-item
    boundary, makes one call and adds exactly one outcome.  A rejected call
    gives a Failure with the message of the error (or "Failed to process
    image" when it has none) and an empty detection list.  A fulfilled call
    whose reply cannot be read (the reply is null or undefined, or its
    [predictions] is a truthy value that is not an array) gives a Failure
    with a message and an empty detection list.  A fulfilled call with any
    other body gives a Success: its detections are the provider's list,
    each stamped with the index and name of the item (none when
    [predictions] is missing or falsy), and its dimensions those of the
    reply, or null.  The loop dispatches every file, in order: its [k]-th
    outcome and call are those of dispatching the [k]-th file by itself
    as the [k]-th call. *)
Theorem dispatch_isolates_failures (env : environment)
  (axios_post : nat -> outbound_call -> axios_result) :
  (forall i file st,
     let reply := axios_post (List.length (calls st)) (item_call env i file) in
     exists entry,
       process_item env axios_post i file st =
         (Normal tt,
          mkState (results st ++ [entry])
                  (calls st ++ [item_call env i file]))
       /\ (forall e, reply = Rejected e ->
           entry = VObj [("imageIndex", VNum (Z.of_nat i));
                         ("imageName", VStr (item_name i file));
                         ("error", js_or (err_message e)
                                         (VStr "Failed to process image"));
                         ("predictions", VArr [])])
       /\ (forall data, reply = Resolved data ->
           nullish data = true \/
           (truthy (member data "predictions") = true /\
            forall l, member data "predictions" <> VArr l) ->
           exists msg,
             truthy msg = true /\
             entry = VObj [("imageIndex", VNum (Z.of_nat i));
                           ("imageName", VStr (item_name i file));
                           ("error", msg);
                           ("predictions", VArr [])])
       /\ (forall data l, reply = Resolved data ->
           nullish data = false ->
           member data "predictions" = VArr l \/
           (truthy (member data "predictions") = false /\ l = []) ->
           entry =
             VObj [("imageIndex", VNum (Z.of_nat i));
                   ("imageName", VStr (item_name i file));
                   ("predictions",
                    VArr (map (stamp i (item_name i file)) l));
                   ("image_width",
                    js_or (get_opt (member data "image") "width") VNull);
                   ("image_height",
                    js_or (get_opt (member data "image") "height") VNull)]))
  /\
  (forall files st,
     exists rs cs,
       process_from env axios_post 0 files st =
         (Normal tt, mkState (results st ++ rs) (calls st ++ cs))
       /\ List.length rs = List.length files
       /\ List.length cs = List.length files
       /\ (forall k file,
             nth_error files k = Some file ->
             exists entry,
               nth_error rs k = Some entry /\
               nth_error cs k = Some (item_call env k file) /\
               forall st_k,
                 List.length (calls st_k) = List.length (calls st) + k ->
                 process_item env axios_post k file st_k =
                   (Normal tt,
                    mkState (results st_k ++ [entry])
                            (calls st_k ++ [item_call env k file])))).
Proof.
  split.
  - intros i file st reply.
    exists (item_outcome i file reply).
    split; [apply process_item_run|].
    split; [|split].
    + intros e ->. reflexivity.
    + intros data -> Hbad.
      assert (Hnone : reply_detections data = None).
      { unfold reply_detections.
        destruct Hbad as [->|[Ht Hna]]; [reflexivity|].
        destruct (nullish data); [reflexivity|].
        unfold js_or. rewrite Ht.
        destruct (member data "predictions") as [| | | | |l|]; auto.
        now contradiction (Hna l). }
      unfold item_outcome. rewrite Hnone.
      eexists. split; [|reflexivity]. now apply js_or_truthy.
    + intros data l -> Hn Hgood.
      assert (Hsome : reply_detections data = Some l).
      { unfold reply_detections. rewrite Hn. unfold js_or.
        destruct Hgood as [->|[-> ->]]; reflexivity. }
      unfold item_outcome. now rewrite Hsome.
  - intros files st.
    exists (outcomes_from env axios_post (List.length (calls st)) 0 files),
           (calls_from env 0 files).
    split; [apply process_from_run|].
    split; [apply outcomes_from_length|].
    split; [apply calls_from_length|].
    intros k file Hk.
    rewrite (outcomes_from_nth env axios_post files _ 0 k file Hk).
    eexists. split; [reflexivity|]. split.
    + now rewrite (calls_from_nth env files 0 k file Hk).
    + intros st_k Hlen. cbn [Nat.add].
      rewrite process_item_run, Hlen. reflexivity.
Qed.

Lemma dispatch_isolates_failures_witness :
  exists entry,
    process_item sample_env first_call_times_out 0
      (stored_file (png_part "left.png" 2048)) initial_state =
      (Normal tt,
       mkState [entry]
         [item_call sample_env 0 (stored_file (png_part "left.png" 2048))])
    /\ entry = VObj [("imageIndex", VNum 0);
                     ("imageName", VStr "left.png");
                     ("error", VStr "timeout of 5000ms exceeded");
                     ("predictions", VArr [])].
Proof.
  destruct (proj1 (dispatch_isolates_failures sample_env
                     first_call_times_out)
              0 (stored_file (png_part "left.png" 2048)) initial_state)
    as (entry & Hrun & Hrej & _).
  exists entry. split; [exact Hrun|].
  exact (Hrej timeout_error eq_refl).
Defined.

(** C2 as stated fails: a fulfilled call whose body is not a reply of the
    expected shape (here a page of text) is recorded as a Success outcome
    with no detections, not as a Failure. *)
Lemma malformed_reply_recorded_as_success :
  well_formed_reply (VStr "<html>Bad Gateway</html>") = false /\
  process_item sample_env answers_html 0
    (stored_file (png_part "left.png" 2048)) initial_state =
    (Normal tt,
     mkState
       [VObj [("imageIndex", VNum 0);
              ("imageName", VStr "left.png");
              ("predictions", VArr []);
              ("image_width", VNull);
              ("image_height", VNull)]]
       [item_call sample_env 0 (stored_file (png_part "left.png" 2048))]) /\
  is_failure
    (VObj [("imageIndex", VNum 0);
           ("imageName", VStr "left.png");
           ("predictions", VArr []);
           ("image_width", VNull);
           ("image_height", VNull)]) = false.
Proof.
  repeat split.
Qed.

(* ===================================================================== *)
(** ** Provenance *)
(* ===================================================================== *)

(** Every detection of an outcome carries the index and name of the
    outcome. *)
Lemma outcome_detection_stamped (i : nat) (file : UploadedFile)
  (reply : axios_result) (d : value) :
  In d (entry_predictions (item_outcome i file reply)) ->
  member d "imageIndex" = VNum (Z.of_nat i) /\
  member d "imageName" = VStr (item_name i file).
Proof.
  destruct reply as [data|e]; simpl.
  - destruct (reply_detections data) as [l|]; simpl; [|tauto].
    intros Hin. apply in_map_iff in Hin as (p & <- & _).
    split; [apply stamp_imageIndex | apply stamp_imageName].
  - tauto.
Qed.

Section Replies.

Variable env : environment.
Variable axios_post : nat -> outbound_call -> axios_result.

(** The five ways the endpoint answers: four fixed rejections made without
    any remote call, or the aggregation of the outcomes of the files that
    were attached. *)
Lemma serve_cases (r : http_request) :
  serve env axios_post r = (Normal no_images_response, []) \/
  serve env axios_post r = (Normal invalid_type_response, []) \/
  serve env axios_post r = (Normal too_large_response, []) \/
  serve env axios_post r = (Normal not_configured_response, []) \/
  (exists files,
     files <> [] /\
     serve env axios_post r =
     (Normal (analysis_reply
                (js_or (member (VObj (form_fields r)) "area")
                       (VStr "unknown"))
                (outcomes_from env axios_post 0 0 files)),
      calls_from env 0 files)).
Proof.
  destruct (multipart r) eqn:Hm.
  2:{ left. apply serve_no_files. unfold attached_files. now rewrite Hm. }
  destruct (Forall_Exists_dec passes_upload passes_dec (file_parts r))
    as [Hp|Hex].
  - destruct (serve_delivered env axios_post r Hm Hp) as (H0 & H500 & H200).
    destruct (list_eq_dec_nil
                (map stored_file (filter named (file_parts r))))
      as [Hnil|Hne].
    + left. now apply H0.
    + destruct (api_unconfigured env) eqn:Hcfg.
      * right; right; right; left. now apply H500.
      * right; right; right; right. eexists. split; [exact Hne|].
        now apply H200.
  - destruct (receive_rejects _ Hex []) as [He|He].
    + right; left. now apply serve_type_error.
    + right; right; left. now apply serve_size_error.
Qed.

(** A detection of the flattened list comes from one of the outcomes. *)
Lemma flattened_detection_origin (files : list UploadedFile) :
  forall n i d,
    In d (List.concat (map entry_predictions
                         (outcomes_from env axios_post n i files))) ->
    exists k file,
      nth_error files k = Some file /\
      In d (entry_predictions
              (item_outcome (i + k) file
                 (axios_post (n + k) (item_call env (i + k) file)))).
Proof.
  induction files as [|f rest IH]; intros n i d Hin; simpl in Hin.
  - contradiction.
  - apply in_app_or in Hin as [Hin|Hin].
    + exists 0, f. rewrite !Nat.add_0_r. split; [reflexivity|assumption].
    + destruct (IH _ _ _ Hin) as (k & file & Hk & Hd).
      exists (S k), file. rewrite !Nat.add_succ_r. auto.
Qed.

End Replies.

(** C3.  In an analysis reply, the [imageIndex] and [imageName] of every
    detection of the flattened [predictions] list are those of exactly one
    entry of [results], and that entry is the outcome whose detection list
    holds the detection. *)
Theorem detection_provenance (env : environment)
  (axios_post : nat -> outbound_call -> axios_result) (r : http_request)
  (resp : http_response) (rs preds : list value) :
  fst (serve env axios_post r) = Normal resp ->
  member (body resp) "results" = VArr rs ->
  member (body resp) "predictions" = VArr preds ->
  forall d, In d preds ->
    (exists! k, exists entry,
       nth_error rs k = Some entry /\
       member entry "imageIndex" = member d "imageIndex" /\
       member entry "imageName" = member d "imageName")
    /\
    (exists k entry,
       nth_error rs k = Some entry /\
       member entry "imageIndex" = member d "imageIndex" /\
       member entry "imageName" = member d "imageName" /\
       In d (entry_predictions entry)).
Proof.
  intros Hserve Hrs Hpreds d Hin.
  destruct (serve_cases env axios_post r)
    as [H|[H|[H|[H|(files & Hne & Hrun)]]]];
    try (rewrite H in Hserve; injection Hserve as <-; discriminate).
  rewrite Hrun in Hserve. unfold analysis_reply in Hserve.
  injection Hserve as <-. cbn in Hrs, Hpreds.
  injection Hrs as <-. injection Hpreds as <-.
  destruct (flattened_detection_origin env axios_post files 0 0 d Hin)
    as (k & file & Hk & Hd).
  cbn [Nat.add] in Hd.
  pose proof Hd as Hstamp.
  apply outcome_detection_stamped in Hstamp as [Hi Hn].
  pose proof (outcomes_from_nth env axios_post files 0 0 k file Hk) as Hnth.
  cbn [Nat.add] in Hnth.
  split.
  - exists k. split.
    + eexists. split; [exact Hnth|].
      rewrite item_outcome_imageIndex, item_outcome_imageName. auto.
    + intros k' (entry & Hk' & Hi' & _).
      assert (Hf : exists file', nth_error files k' = Some file').
      { destruct (nth_error files k') as [file'|] eqn:E; eauto.
        apply nth_error_None in E.
        assert (Hsome : nth_error (outcomes_from env axios_post 0 0 files) k'
                        <> None) by congruence.
        apply nth_error_Some in Hsome.
        rewrite outcomes_from_length in Hsome. lia. }
      destruct Hf as (file' & Hf).
      rewrite (outcomes_from_nth env axios_post files 0 0 k' file' Hf)
        in Hk'.
      injection Hk' as <-. cbn [Nat.add] in Hi'.
      rewrite item_outcome_imageIndex, Hi in Hi'.
      injection Hi' as Hi'. lia.
  - exists k. eexists. split; [exact Hnth|].
    rewrite item_outcome_imageIndex, item_outcome_imageName.
    repeat split; auto.
Qed.

Lemma detection_provenance_witness :
  let d := VObj [("class", VStr "crack"); ("confidence", VNum 1);
                 ("x", VNum 40); ("imageIndex", VNum 1);
                 ("imageName", VStr "right.png")] in
  exists! k, exists entry,
    nth_error
      (outcomes_from sample_env first_call_times_out 0 0
         (map stored_file (file_parts two_images))) k = Some entry /\
    member entry "imageIndex" = member d "imageIndex" /\
    member entry "imageName" = member d "imageName".
Proof.
  intros d.
  eapply (proj1 (detection_provenance sample_env first_call_times_out
                   two_images _ _ _ eq_refl eq_refl eq_refl d _)).
  Unshelve. vm_compute. auto.
Defined.

(* ===================================================================== *)
(** ** Rejections before any remote call *)
(* ===================================================================== *)

Lemma env_or_placeholder (x : option string) (placeholder : string) :
  unset_or_placeholder x placeholder -> env_or x placeholder = placeholder.
Proof.
  intros [-> | [-> | ->]]; simpl; auto.
  all: destruct (placeholder =? EmptyString); reflexivity.
Qed.

Lemma placeholder_unconfigured (env : environment) :
  unset_or_placeholder (env_ROBOFLOW_API_KEY env) "YOUR_KEY_HERE" \/
  unset_or_placeholder (env_ROBOFLOW_MODEL_ID env) "YOUR_MODEL_ID_HERE" ->
  api_unconfigured env = true.
Proof.
  unfold api_unconfigured, ROBOFLOW_API_KEY, ROBOFLOW_MODEL_ID.
  intros [H|H]; rewrite (env_or_placeholder _ _ H); simpl.
  - reflexivity.
  - now rewrite orb_true_r.
Qed.

(** C4.  A request with no file attached is answered 400 "No images
    provided" whatever the configuration, the unconfigured one included;
    a 500 "API not configured" reply is only given to a request with at
    least one file. *)
Theorem no_files_checked_first (env : environment)
  (axios_post : nat -> outbound_call -> axios_result) (r : http_request) :
  (attached_files r = [] ->
   serve env axios_post r = (Normal no_images_response, []) /\
   status no_images_response = VNum 400 /\
   member (body no_images_response) "error" = VStr "No images provided")
  /\
  (forall resp,
     fst (serve env axios_post r) = Normal resp ->
     member (body resp) "error" = VStr "API not configured" ->
     status resp = VNum 500 /\ attached_files r <> []).
Proof.
  split.
  - intros H. repeat split. now apply serve_no_files.
  - intros resp Hserve Herr.
    destruct (serve_cases env axios_post r)
      as [H|[H|[H|[H|(files & Hne & Hrun)]]]].
    1-3: rewrite H in Hserve; injection Hserve as <-; discriminate.
    + rewrite H in Hserve. injection Hserve as <-. split; auto.
      intros Hnone. rewrite (serve_no_files env axios_post r Hnone) in H.
      discriminate.
    + rewrite Hrun in Hserve. unfold analysis_reply in Hserve.
      injection Hserve as <-. discriminate.
Qed.

Lemma no_files_checked_first_witness :
  serve (mkEnv None None) first_call_times_out no_files_at_all =
    (Normal no_images_response, []) /\
  api_unconfigured (mkEnv None None) = true.
Proof.
  split.
  - apply (proj1 (no_files_checked_first (mkEnv None None)
                    first_call_times_out no_files_at_all)).
    reflexivity.
  - reflexivity.
Defined.

(** C9, as amended.  With a credential or model identifier that is absent,
    empty or the placeholder itself, a request with at least one file, all
    of whose files are valid, is answered 500 "API not configured" and no
    remote call is made. *)
Theorem placeholder_configuration_rejected (env : environment)
  (axios_post : nat -> outbound_call -> axios_result) (r : http_request) :
  multipart r = true ->
  file_parts r <> [] ->
  Forall valid_part (file_parts r) ->
  unset_or_placeholder (env_ROBOFLOW_API_KEY env) "YOUR_KEY_HERE" \/
  unset_or_placeholder (env_ROBOFLOW_MODEL_ID env) "YOUR_MODEL_ID_HERE" ->
  serve env axios_post r = (Normal not_configured_response, []) /\
  status not_configured_response = VNum 500 /\
  member (body not_configured_response) "error" = VStr "API not configured".
Proof.
  intros Hm Hne Hv Hph. repeat split.
  apply serve_not_configured; auto.
  now apply placeholder_unconfigured.
Qed.

Lemma placeholder_configuration_rejected_witness :
  serve (mkEnv (Some "rf_secret") (Some "YOUR_MODEL_ID_HERE"))
        first_call_times_out two_images =
    (Normal not_configured_response, []).
Proof.
  apply (placeholder_configuration_rejected
           (mkEnv (Some "rf_secret") (Some "YOUR_MODEL_ID_HERE"))
           first_call_times_out two_images).
  - reflexivity.
  - discriminate.
  - repeat constructor; vm_compute; congruence.
  - right. right. right. reflexivity.
Defined.

(** C9 as stated fails: with a placeholder configuration, a request with a
    valid image and a text file is answered 400 for the text file, the
    upload checks coming before the configuration check. *)
Lemma valid_image_with_text_file_under_placeholder :
  Exists valid_part (file_parts image_and_text) /\
  unset_or_placeholder (env_ROBOFLOW_MODEL_ID placeholder_env)
                       "YOUR_MODEL_ID_HERE" /\
  serve placeholder_env first_call_times_out image_and_text =
    (Normal invalid_type_response, []) /\
  status invalid_type_response = VNum 400 /\
  status invalid_type_response <> VNum 500.
Proof.
  split; [|split; [|split; [|split]]].
  - left. valid_now.
  - right. right. reflexivity.
  - reflexivity.
  - reflexivity.
  - discriminate.
Qed.

Lemma attached_multipart (r : http_request) :
  attached_files r <> [] ->
  multipart r = true /\ attached_files r = file_parts r.
Proof.
  unfold attached_files. destruct (multipart r); auto.
  intros H. now contradiction H.
Qed.

(** A request with a file that is refused is answered by the rejection of
    the first such file, without any remote call. *)
Lemma serve_first_refused (env : environment)
  (axios_post : nat -> outbound_call -> axios_result) (r : http_request)
  (pre post : list file_part) (p : file_part) :
  attached_files r = pre ++ p :: post ->
  Forall passes_upload pre ->
  (refused_for_type p ->
   serve env axios_post r = (Normal invalid_type_response, []))
  /\
  (refused_for_size p ->
   serve env axios_post r = (Normal too_large_response, [])).
Proof.
  intros Hsplit Hpre.
  destruct (attached_multipart r) as [Hm Heq].
  { rewrite Hsplit. now destruct pre. }
  rewrite Heq in Hsplit. split; intros Hp.
  - apply serve_type_error; auto.
    rewrite Hsplit. now apply receive_first_bad_type.
  - apply serve_size_error; auto.
    rewrite Hsplit. now apply receive_first_too_large.
Qed.

Lemma refused_upload_answer (env : environment)
  (axios_post : nat -> outbound_call -> axios_result) (r : http_request) :
  Exists (fun p => ~ passes_upload p) (attached_files r) ->
  exists resp,
    serve env axios_post r = (Normal resp, []) /\
    status resp = VNum 400 /\
    (forall pre p post,
       attached_files r = pre ++ p :: post ->
       Forall passes_upload pre ->
       refused_for_type p ->
       resp = invalid_type_response /\
       member (body resp) "error" = VStr "Invalid file type") /\
    (forall pre p post,
       attached_files r = pre ++ p :: post ->
       Forall passes_upload pre ->
       refused_for_size p ->
       resp = too_large_response /\
       member (body resp) "error" = VStr "File too large").
Proof.
  intros Hbad.
  destruct (first_refused _ Hbad) as (pre & p & post & Hsplit & Hpre & Hp).
  destruct (serve_first_refused env axios_post r pre post p Hsplit Hpre)
    as [Htype Hsize].
  destruct Hp as [Hp|Hp].
  - exists invalid_type_response.
    split; [now apply Htype|]. split; [reflexivity|]. split.
    + intros. now split.
    + intros pre' p' post' Hs' Hpre' Hp'.
      destruct (serve_first_refused env axios_post r pre' post' p' Hs' Hpre')
        as [_ H']. rewrite (Htype Hp) in H'. specialize (H' Hp').
      discriminate.
  - exists too_large_response.
    split; [now apply Hsize|]. split; [reflexivity|]. split.
    + intros pre' p' post' Hs' Hpre' Hp'.
      destruct (serve_first_refused env axios_post r pre' post' p' Hs' Hpre')
        as [H' _]. rewrite (Hsize Hp) in H'. specialize (H' Hp').
      discriminate.
    + intros. now split.
Qed.

(** C5, as amended.  A request with a named file whose media type, as the
    upload middleware reports it, does not start with [image/] is answered
    400 and no remote call is made.  The error is that of the first file
    that is refused: "Invalid file type" when that file is a named file of
    another type, every named file before it being an image smaller than
    10 MiB, and "File too large" when a named image of 10 MiB or more comes
    before every file of another type. *)
Theorem non_image_file_rejected (env : environment)
  (axios_post : nat -> outbound_call -> axios_result) (r : http_request) :
  Exists refused_for_type (attached_files r) ->
  exists resp,
    serve env axios_post r = (Normal resp, []) /\
    status resp = VNum 400 /\
    (forall pre p post,
       attached_files r = pre ++ p :: post ->
       Forall passes_upload pre ->
       refused_for_type p ->
       resp = invalid_type_response /\
       member (body resp) "error" = VStr "Invalid file type") /\
    (forall pre p post,
       attached_files r = pre ++ p :: post ->
       Forall passes_upload pre ->
       refused_for_size p ->
       resp = too_large_response /\
       member (body resp) "error" = VStr "File too large").
Proof.
  intros Hex. apply refused_upload_answer.
  eapply Exists_impl; [|exact Hex].
  intros p Hp. apply refused_not_passes. now left.
Qed.

Lemma non_image_file_rejected_witness :
  serve sample_env first_call_times_out image_and_text =
    (Normal invalid_type_response, []) /\
  serve sample_env first_call_times_out big_image_then_text =
    (Normal too_large_response, []).
Proof.
  split.
  - destruct (non_image_file_rejected sample_env first_call_times_out
                image_and_text) as (resp & Hserve & _ & Htype & _).
    + right. left. split; [discriminate | reflexivity].
    + rewrite Hserve. f_equal. f_equal.
      apply (Htype [png_part "left.png" 2048] (text_part "notes.txt" 20) []).
      * reflexivity.
      * all_pass.
      * split; [discriminate | reflexivity].
  - destruct (non_image_file_rejected sample_env first_call_times_out
                big_image_then_text) as (resp & Hserve & _ & _ & Hsize).
    + right. left. split; [discriminate | reflexivity].
    + rewrite Hserve. f_equal. f_equal.
      apply (Hsize [] (png_part "hangar.png" 10485761)
                   [text_part "notes.txt" 20]).
      * reflexivity.
      * constructor.
      * valid_now.
Defined.

(** C5 as stated fails: when an oversized image comes before the file of
    another type, the reply names the size, not the type. *)
Lemma oversized_image_precedes_text_file :
  Exists has_type_outside_image (attached_files big_image_then_text) /\
  serve sample_env first_call_times_out big_image_then_text =
    (Normal too_large_response, []) /\
  member (body too_large_response) "error" = VStr "File too large" /\
  member (body too_large_response) "error" <> VStr "Invalid file type".
Proof.
  repeat split.
  - right. left. reflexivity.
  - discriminate.
Qed.

(** C8, as amended.  A request with a named file of more than 10 MiB is
    answered 400 and no remote call is made.  The error is that of the
    first file that is refused: "File too large" when that file is a named
    image of 10 MiB or more, and "Invalid file type" when it is a named
    file of another type (the oversized file itself, or a file before
    it). *)
Theorem oversized_file_rejected (env : environment)
  (axios_post : nat -> outbound_call -> axios_result) (r : http_request) :
  Exists oversized_file (attached_files r) ->
  exists resp,
    serve env axios_post r = (Normal resp, []) /\
    status resp = VNum 400 /\
    (forall pre p post,
       attached_files r = pre ++ p :: post ->
       Forall passes_upload pre ->
       refused_for_size p ->
       resp = too_large_response /\
       member (body resp) "error" = VStr "File too large") /\
    (forall pre p post,
       attached_files r = pre ++ p :: post ->
       Forall passes_upload pre ->
       refused_for_type p ->
       resp = invalid_type_response /\
       member (body resp) "error" = VStr "Invalid file type").
Proof.
  intros Hex.
  destruct (refused_upload_answer env axios_post r)
    as (resp & Hserve & Hs & Htype & Hsize).
  { eapply Exists_impl; [|exact Hex].
    intros p (Hn & Hbig) [He|(_ & _ & Hsz)]; [contradiction|].
    unfold exceeds_limit in Hbig. lia. }
  exists resp. auto.
Qed.

Lemma oversized_file_rejected_witness :
  serve sample_env first_call_times_out one_big_image =
    (Normal too_large_response, []) /\
  serve sample_env first_call_times_out big_text_file =
    (Normal invalid_type_response, []).
Proof.
  split.
  - destruct (oversized_file_rejected sample_env first_call_times_out
                one_big_image) as (resp & Hserve & _ & Hsize & _).
    + right. left. split; [discriminate | vm_compute; reflexivity].
    + rewrite Hserve. f_equal. f_equal.
      apply (Hsize [png_part "left.png" 2048]
                   (png_part "hangar.png" 10485761) []).
      * reflexivity.
      * all_pass.
      * valid_now.
  - destruct (oversized_file_rejected sample_env first_call_times_out
                big_text_file) as (resp & Hserve & _ & _ & Htype).
    + left. split; [discriminate | vm_compute; reflexivity].
    + rewrite Hserve. f_equal. f_equal.
      apply (Htype [] (text_part "dump.txt" 10485761) []).
      * reflexivity.
      * constructor.
      * split; [discriminate | reflexivity].
Defined.

(** C8 as stated fails: an oversized file of another type is refused for
    its type, the filter being asked before the bytes are read. *)
Lemma oversized_text_file_refused_for_type :
  Exists exceeds_limit (attached_files big_text_file) /\
  serve sample_env first_call_times_out big_text_file =
    (Normal invalid_type_response, []) /\
  member (body invalid_type_response) "error" = VStr "Invalid file type" /\
  member (body invalid_type_response) "error" <> VStr "File too large".
Proof.
  repeat split.
  - left. vm_compute. reflexivity.
  - discriminate.
Qed.

(* ===================================================================== *)
(** ** Translation of request-level errors *)
(* ===================================================================== *)





(** No failure of a remote call reaches the outer catch: whatever the
    service does, the endpoint never answers with the translated error. *)
Lemma remote_failure_stays_per_item (env : environment)
  (axios_post : nat -> outbound_call -> axios_result) (r : http_request)
  (resp : http_response) :
  fst (serve env axios_post r) = Normal resp ->
  member (body resp) "error" <> VStr "Roboflow API error".
Proof.
  intros Hserve.
  destruct (serve_cases env axios_post r)
    as [H|[H|[H|[H|(files & Hne & Hrun)]]]];
    try (rewrite H in Hserve; injection Hserve as <-; discriminate).
  rewrite Hrun in Hserve. unfold analysis_reply in Hserve.
  injection Hserve as <-. discriminate.
Qed.

(* ===================================================================== *)
(** ** Optional fields of a reply *)
(* ===================================================================== *)




(** C10.  In a Success outcome a width or height that the provider gave as
    a falsy value, 0 included, is reported as null, so that an outcome
    with null does not tell a missing dimension from a dimension of 0:
    two replies with the same detections and falsy dimensions give the
    same outcome. *)
Theorem falsy_dimension_reported_null (env : environment)
  (i : nat) (file : UploadedFile) (st : req_state) :
  (forall axios_post data l,
     axios_post (List.length (calls st)) (item_call env i file)
       = Resolved data ->
     reply_detections data = Some l ->
     exists entry,
       process_item env axios_post i file st =
         (Normal tt,
          mkState (results st ++ [entry])
                  (calls st ++ [item_call env i file]))
       /\ is_failure entry = false
       /\ (truthy (get_opt (member data "image") "width") = false ->
           member entry "image_width" = VNull)
       /\ (truthy (get_opt (member data "image") "height") = false ->
           member entry "image_height" = VNull))
  /\
  (forall axios_post1 axios_post2 data1 data2 l,
     axios_post1 (List.length (calls st)) (item_call env i file)
       = Resolved data1 ->
     axios_post2 (List.length (calls st)) (item_call env i file)
       = Resolved data2 ->
     reply_detections data1 = Some l ->
     reply_detections data2 = Some l ->
     truthy (get_opt (member data1 "image") "width") = false ->
     truthy (get_opt (member data1 "image") "height") = false ->
     truthy (get_opt (member data2 "image") "width") = false ->
     truthy (get_opt (member data2 "image") "height") = false ->
     process_item env axios_post1 i file st
     = process_item env axios_post2 i file st).
Proof.
  split.
  - intros axios_post data l Hcall Hl.
    exists (success_entry i file data l).
    split; [|split; [|split]].
    + rewrite process_item_run, Hcall. unfold item_outcome. now rewrite Hl.
    + reflexivity.
    + intros Hw. simpl. now apply js_or_falsy.
    + intros Hh. simpl. now apply js_or_falsy.
  - intros ax1 ax2 data1 data2 l Hc1 Hc2 Hl1 Hl2 Hw1 Hh1 Hw2 Hh2.
    rewrite !process_item_run, Hc1, Hc2. unfold item_outcome.
    rewrite Hl1, Hl2. unfold success_entry.
    now rewrite !js_or_falsy by assumption.
Qed.

Lemma falsy_dimension_reported_null_witness :
  process_item sample_env answers_with_zero_size 0
    (stored_file (png_part "left.png" 2048)) initial_state
  = process_item sample_env answers_without_image 0
      (stored_file (png_part "left.png" 2048)) initial_state
  /\ exists entry,
       results
         (snd (process_item sample_env answers_with_zero_size 0
                 (stored_file (png_part "left.png" 2048)) initial_state))
       = [entry]
       /\ member entry "image_width" = VNull
       /\ member entry "image_height" = VNull.
Proof.
  destruct (falsy_dimension_reported_null sample_env 0
              (stored_file (png_part "left.png" 2048)) initial_state)
    as [Hnull Hsame].
  split.
  - apply (Hsame answers_with_zero_size answers_without_image
             reply_with_zero_size reply_without_image [dent]);
      reflexivity.
  - destruct (Hnull answers_with_zero_size reply_with_zero_size [dent]
                eq_refl eq_refl) as (entry & Hrun & _ & Hw & Hh).
    exists entry. rewrite Hrun. split; [reflexivity|].
    split; [apply Hw | apply Hh]; reflexivity.
Defined.

(** The outer catch is what answers when the body of the handler throws;
    the only throw left to it is the read of [req.body.area] on a request
    without a body object. *)
Lemma outer_catch_answers (env : environment)
  (axios_post : nat -> outbound_call -> axios_result)
  (req : express_req) (st st' : req_state) (e : js_error) :
  analyze_try env axios_post req st = (Thrown e, st') ->
  analyze_handler env axios_post req st = (request_catch e, st').
Proof.
  unfold analyze_handler, try_catch. intros ->. reflexivity.
Qed.

Example handler_without_body :
  analyze_handler sample_env first_call_times_out
    (mkReq (Some [stored_file (png_part "left.png" 2048)]) None VUndefined)
    initial_state =
  (Normal
     (res_status_json (VNum 500)
        [("error", VStr "Internal server error");
         ("message",
          VStr "Cannot read properties of undefined (reading 'area')")]),
   initial_state).
Proof. reflexivity. Qed.

(* ===================================================================== *)
(** ** Further properties of the upload checks *)
(* ===================================================================== *)

Lemma prefix_split (s1 s2 : string) :
  String.prefix s1 s2 = true <-> exists rest, s2 = (s1 ++ rest)%string.
Proof.
  revert s2. induction s1 as [|a s1 IH]; intros s2.
  - destruct s2; simpl; split; eauto.
  - destruct s2 as [|b s2]; simpl.
    + split; [discriminate | intros [rest H]; discriminate].
    + destruct (ascii_dec a b) as [->|Hne].
      * rewrite IH. split; intros [rest H]; exists rest.
        -- now rewrite H.
        -- now injection H.
      * split; [discriminate|]. intros [rest H]. injection H as H1 _.
        congruence.
Qed.

(** The file filter accepts a part exactly when its declared media type is
    [image/] followed by anything (nothing included), compared with case;
    every other part is refused with the fixed error. *)
Theorem filter_accepts_image_prefix (p : file_part) :
  (fileFilter p = (None, true) <->
   exists rest, part_mimetype p = ("image/" ++ rest)%string)
  /\
  (fileFilter p = (None, true) \/ fileFilter p = (Some type_error, false)).
Proof.
  unfold fileFilter, is_image_type.
  destruct (String.prefix "image/" (part_mimetype p)) eqn:E.
  - split; [|now left]. split; [|reflexivity].
    intros _. now apply prefix_split.
  - split; [|now right]. split; [discriminate|].
    intros H. apply prefix_split in H. congruence.
Qed.

Lemma filter_accepts_image_prefix_witness :
  fileFilter (mkPart "photo" "a.svg" "image/" (mkBuffer 3 0)) = (None, true)
  /\ fileFilter (mkPart "photo" "a.png" "Image/png" (mkBuffer 3 0))
     = (Some type_error, false).
Proof.
  split.
  - apply (proj1 (filter_accepts_image_prefix
                    (mkPart "photo" "a.svg" "image/" (mkBuffer 3 0)))).
    exists EmptyString. reflexivity.
  - destruct (proj2 (filter_accepts_image_prefix
                       (mkPart "photo" "a.png" "Image/png" (mkBuffer 3 0))))
      as [H|H]; [discriminate H | exact H].
Defined.

(* ===================================================================== *)
(** ** Configuration *)
(* ===================================================================== *)

Lemma env_or_usable (x : option string) (placeholder : string) :
  placeholder <> EmptyString ->
  (env_or x placeholder =? placeholder) || is_empty (env_or x placeholder)
    = false ->
  exists s, usable_setting x placeholder s /\ env_or x placeholder = s.
Proof.
  intros Hph H. apply orb_false_iff in H as [Hne Hemp].
  apply String.eqb_neq in Hne. unfold is_empty in Hemp.
  apply String.eqb_neq in Hemp.
  unfold env_or in *. destruct x as [s|]; [|congruence].
  destruct (s =? EmptyString) eqn:E; [congruence|].
  exists s. repeat split; auto.
Qed.

Lemma usable_env_or (x : option string) (placeholder s : string) :
  usable_setting x placeholder s -> env_or x placeholder = s.
Proof.
  intros (-> & Hne & _). simpl.
  destruct (s =? EmptyString) eqn:E; auto.
  apply String.eqb_eq in E. contradiction.
Qed.

(** The service counts as configured exactly when both variables of the
    environment are set to a non-empty string other than their placeholder;
    the key and the URL of every call are then the values of the
    environment themselves. *)
Theorem configured_iff_both_set (env : environment) :
  api_unconfigured env = false <->
  exists key model,
    usable_setting (env_ROBOFLOW_API_KEY env) "YOUR_KEY_HERE" key /\
    usable_setting (env_ROBOFLOW_MODEL_ID env) "YOUR_MODEL_ID_HERE" model /\
    ROBOFLOW_API_KEY env = key /\
    ROBOFLOW_API_URL env = ("https://detect.roboflow.com/" ++ model)%string.
Proof.
  unfold api_unconfigured, ROBOFLOW_API_URL, ROBOFLOW_API_KEY,
    ROBOFLOW_MODEL_ID.
  split.
  - intros H.
    apply orb_false_iff in H as [H Hm2].
    apply orb_false_iff in H as [H Hk2].
    apply orb_false_iff in H as [Hk1 Hm1].
    destruct (env_or_usable (env_ROBOFLOW_API_KEY env) "YOUR_KEY_HERE")
      as (key & Hkey & Hk); [discriminate | now rewrite Hk1, Hk2 |].
    destruct (env_or_usable (env_ROBOFLOW_MODEL_ID env) "YOUR_MODEL_ID_HERE")
      as (model & Hmodel & Hmo); [discriminate | now rewrite Hm1, Hm2 |].
    exists key, model. rewrite Hmo. auto.
  - intros (key & model & Hkey & Hmodel & _ & _).
    rewrite (usable_env_or _ _ _ Hkey), (usable_env_or _ _ _ Hmodel).
    destruct Hkey as (_ & Hk1 & Hk2). destruct Hmodel as (_ & Hm1 & Hm2).
    apply String.eqb_neq in Hk1, Hk2, Hm1, Hm2.
    unfold is_empty. now rewrite Hk1, Hk2, Hm1, Hm2.
Qed.

Lemma configured_iff_both_set_witness :
  api_unconfigured sample_env = false /\
  api_unconfigured (mkEnv (Some "rf_secret") (Some EmptyString)) = true.
Proof.
  split.
  - apply (proj2 (configured_iff_both_set sample_env)).
    exists "rf_secret", "wing-defects/3".
    repeat split; discriminate.
  - reflexivity.
Defined.

(* ===================================================================== *)
(** ** The handler on any request object *)
(* ===================================================================== *)



(** For the files it is given, the handler calls the service exactly once
    per file, in their order, whatever the earlier calls did; the call of
    the [k]-th file goes to the configured URL with the key, and carries
    the buffer and the media type of the file and its original name, or
    [image_<k+1>.jpg] when that is empty. *)
Theorem one_call_per_file (env : environment)
  (axios_post : nat -> outbound_call -> axios_result)
  (req : express_req) (st : req_state) :
  request_files req <> [] ->
  api_unconfigured env = false ->
  nullish (req_body req) = false ->
  exists resp st' cs,
    analyze_handler env axios_post req st = (Normal resp, st') /\
    calls st' = calls st ++ cs /\
    List.length cs = List.length (request_files req) /\
    forall k file,
      nth_error (request_files req) k = Some file ->
      nth_error cs k =
        Some (mkCall
                ("https://detect.roboflow.com/" ++ ROBOFLOW_MODEL_ID env
                 ++ "?api_key=" ++ ROBOFLOW_API_KEY env)%string
                (if originalname file =? EmptyString
                 then ("image_" ++ string_of_nat (k + 1) ++ ".jpg")%string
                 else originalname file)
                (mimetype file) (buffer file)).
Proof.
  intros Hne Hcfg Hbody.
  eexists. eexists. exists (calls_from env 0 (request_files req)).
  split; [now apply analyze_handler_run|].
  split; [reflexivity|]. split; [apply calls_from_length|].
  intros k file Hk.
  now rewrite (calls_from_nth env _ 0 k file Hk).
Qed.

Lemma one_call_per_file_witness :
  calls
    (snd (analyze_handler sample_env always_forbidden
            (mkReq (Some [stored_file (png_part "left.png" 2048);
                          stored_file (png_part "right.png" 4096)])
                   None (VObj []))
            initial_state)) =
    [mkCall "https://detect.roboflow.com/wing-defects/3?api_key=rf_secret"
            "left.png" "image/png" (mkBuffer 2048 0);
     mkCall "https://detect.roboflow.com/wing-defects/3?api_key=rf_secret"
            "right.png" "image/png" (mkBuffer 4096 0)].
Proof.
  destruct (one_call_per_file sample_env always_forbidden
              (mkReq (Some [stored_file (png_part "left.png" 2048);
                            stored_file (png_part "right.png" 4096)])
                     None (VObj []))
              initial_state)
    as (resp & st' & cs & Hrun & Hcalls & Hlen & Hnth).
  - discriminate.
  - reflexivity.
  - reflexivity.
  - rewrite Hrun. cbn [snd]. rewrite Hcalls. cbn [calls initial_state app].
    pose proof (Hnth 0 _ eq_refl) as H0.
    pose proof (Hnth 1 _ eq_refl) as H1.
    destruct cs as [|c0 [|c1 [|c2 cs]]]; try discriminate.
    simpl in H0, H1. injection H0 as ->. injection H1 as ->.
    reflexivity.
Defined.

(** The [area] of a 200 reply is the [area] form field of the request when
    it is truthy, and ["unknown"] when the field is missing or falsy (the
    empty string included). *)
Theorem area_echoed_or_unknown (env : environment)
  (axios_post : nat -> outbound_call -> axios_result) (r : http_request)
  (resp : http_response) :
  fst (serve env axios_post r) = Normal resp ->
  status resp = VNum 200 ->
  (lookup "area" (form_fields r) = None ->
   member (body resp) "area" = VStr "unknown")
  /\
  (forall v, lookup "area" (form_fields r) = Some v ->
     (truthy v = true -> member (body resp) "area" = v) /\
     (truthy v = false -> member (body resp) "area" = VStr "unknown")).
Proof.
  intros Hserve Hstatus.
  destruct (serve_cases env axios_post r)
    as [H|[H|[H|[H|(files & Hne & Hrun)]]]];
    try (rewrite H in Hserve; injection Hserve as <-; discriminate).
  rewrite Hrun in Hserve. unfold analysis_reply in Hserve.
  injection Hserve as <-. cbn [body res_json member lookup String.eqb].
  simpl. split.
  - intros ->. reflexivity.
  - intros v ->. unfold js_or. split; intros ->; reflexivity.
Qed.

Lemma area_echoed_or_unknown_witness :
  exists resp,
    fst (serve sample_env first_call_times_out named_pair) = Normal resp
    /\ status resp = VNum 200
    /\ member (body resp) "area" = VStr "unknown".
Proof.
  eexists. split; [reflexivity|]. split; [reflexivity|].
  eapply (proj2 (area_echoed_or_unknown sample_env first_call_times_out
                   named_pair _ eq_refl eq_refl)).
  - reflexivity.
  - reflexivity.
Defined.

(* ===================================================================== *)
(** ** Counts of a 200 reply *)
(* ===================================================================== *)

Lemma failures_hold_no_predictions (env : environment)
  (axios_post : nat -> outbound_call -> axios_result)
  (files : list UploadedFile) :
  forall n i,
    Forall (fun e => is_failure e = true)
           (outcomes_from env axios_post n i files) ->
    List.concat (map entry_predictions
                   (outcomes_from env axios_post n i files)) = [].
Proof.
  induction files as [|f rest IH]; intros n i Hall; simpl in *; auto.
  inversion Hall as [|? ? Hf Hrest]; subst.
  rewrite item_outcome_is_failure in Hf.
  rewrite failed_item_predictions by exact Hf. simpl. now apply IH.
Qed.

(** In every 200 reply [image_count] is the number of entries of [results]
    and [total_defects] the length of [predictions], which is the sum of
    the lengths of the detection lists of the entries; a reply whose
    entries are all Failure outcomes has [predictions] empty and
    [total_defects] 0. *)
Theorem totals_add_up (env : environment)
  (axios_post : nat -> outbound_call -> axios_result) (r : http_request)
  (resp : http_response) :
  fst (serve env axios_post r) = Normal resp ->
  status resp = VNum 200 ->
  exists rs preds,
    member (body resp) "results" = VArr rs
    /\ member (body resp) "predictions" = VArr preds
    /\ member (body resp) "image_count" = VNum (Z.of_nat (List.length rs))
    /\ member (body resp) "total_defects"
       = VNum (Z.of_nat (List.length preds))
    /\ List.length preds
       = list_sum (map (fun e => List.length (entry_predictions e)) rs)
    /\ (Forall (fun e => is_failure e = true) rs ->
        preds = [] /\ member (body resp) "total_defects" = VNum 0).
Proof.
  intros Hserve Hstatus.
  destruct (serve_cases env axios_post r)
    as [H|[H|[H|[H|(files & Hne & Hrun)]]]];
    try (rewrite H in Hserve; injection Hserve as <-; discriminate).
  rewrite Hrun in Hserve. injection Hserve as <-.
  set (rs := outcomes_from env axios_post 0 0 files).
  exists rs, (List.concat (map entry_predictions rs)).
  split; [reflexivity|]. split; [reflexivity|]. split; [reflexivity|].
  split; [reflexivity|]. split.
  - now rewrite length_concat, map_map.
  - intros Hall.
    assert (Hempty : List.concat (map entry_predictions rs) = []).
    { now apply failures_hold_no_predictions. }
    split; [exact Hempty|].
    unfold analysis_reply. cbn [body res_json member lookup String.eqb].
    simpl. fold rs. now rewrite Hempty.
Qed.

Lemma totals_add_up_witness :
  exists resp,
    fst (serve sample_env always_forbidden two_images) = Normal resp
    /\ status resp = VNum 200
    /\ member (body resp) "predictions" = VArr []
    /\ member (body resp) "image_count" = VNum 2
    /\ member (body resp) "total_defects" = VNum 0.
Proof.
  eexists. split; [reflexivity|]. split; [reflexivity|].
  destruct (totals_add_up sample_env always_forbidden two_images _
              eq_refl eq_refl)
    as (rs & preds & Hrs & Hp & Hn & _ & _ & Hall).
  vm_compute in Hrs. injection Hrs as <-.
  destruct Hall as [-> Htot].
  - repeat constructor.
  - split; [exact Hp|]. split; [exact Hn|exact Htot].
Defined.

(** The translated error of the outer catch is never the answer of the
    endpoint. *)
Lemma remote_failure_stays_per_item_witness :
  exists resp,
    fst (serve sample_env always_forbidden two_images) = Normal resp /\
    member (body resp) "error" <> VStr "Roboflow API error".
Proof.
  eexists. split; [reflexivity|].
  apply (remote_failure_stays_per_item sample_env always_forbidden
           two_images _ eq_refl).
Defined.

(* ===================================================================== *)
(** ** Names given to files without one *)
(* ===================================================================== *)

Lemma to_int_proper (n : Z) :
  Z.to_int n <> Decimal.Pos Decimal.Nil /\
  Z.to_int n <> Decimal.Neg Decimal.Nil.
Proof.
  destruct n as [|p|p]; simpl; split; try discriminate;
    intros H; injection H as H;
    now apply (DecimalPos.Unsigned.to_uint_nonnil p).
Qed.

Lemma string_of_Z_inj (a b : Z) : string_of_Z a = string_of_Z b -> a = b.
Proof.
  unfold string_of_Z. intros H.
  apply (f_equal NilZero.int_of_string) in H.
  destruct (to_int_proper a) as [Ha1 Ha2].
  destruct (to_int_proper b) as [Hb1 Hb2].
  rewrite !NilZero.isi in H by assumption.
  injection H as H. now apply DecimalZ.to_int_inj.
Qed.

Lemma string_of_nat_inj (a b : nat) :
  string_of_nat a = string_of_nat b -> a = b.
Proof.
  unfold string_of_nat. intros H. apply string_of_Z_inj in H. lia.
Qed.

Lemma append_length (a b : string) :
  String.length (a ++ b) = String.length a + String.length b.
Proof.
  induction a as [|c a IH]; simpl; auto.
Qed.

Lemma append_same_tail (s : string) :
  forall a b : string, (a ++ s = b ++ s)%string -> a = b.
Proof.
  induction a as [|c a IH]; intros [|d b] H; simpl in H.
  - reflexivity.
  - apply (f_equal String.length) in H. simpl in H.
    rewrite append_length in H. lia.
  - apply (f_equal String.length) in H. simpl in H.
    rewrite append_length in H. lia.
  - injection H as -> H. f_equal. now apply IH.
Qed.

(** Two files without a name get different names at different positions:
    the name made up for position [i] is [image_<i+1>.jpg], and it is the
    same for two positions only when they are the same position. *)
Theorem made_up_names_differ (i j : nat) (f g : UploadedFile) :
  originalname f = EmptyString ->
  originalname g = EmptyString ->
  item_name i f = ("image_" ++ string_of_nat (i + 1) ++ ".jpg")%string /\
  (item_name i f = item_name j g -> i = j).
Proof.
  intros Hf Hg. unfold item_name. rewrite Hf, Hg. simpl.
  split; [reflexivity|].
  intros H. injection H as H.
  apply append_same_tail in H. apply string_of_nat_inj in H. lia.
Qed.

Lemma made_up_names_differ_witness :
  item_name 1 (stored_file (png_part EmptyString 1)) = "image_2.jpg".
Proof.
  apply (proj1 (made_up_names_differ 1 1
                  (stored_file (png_part EmptyString 1))
                  (stored_file (png_part EmptyString 1))
                  eq_refl eq_refl)).
Defined.

(* ===================================================================== *)
(** ** The stamp on a detection *)
(* ===================================================================== *)

Lemma obj_set_keys (k : string) (v : value) (fields : list (string * value)) :
  forall x, In x (map fst (obj_set k v fields)) ->
            x = k \/ In x (map fst fields).
Proof.
  induction fields as [|[k' v'] rest IH]; simpl; intros x Hin.
  - destruct Hin as [<-|[]]. now left.
  - destruct (k' =? k) eqn:E; simpl in Hin.
    + now right.
    + destruct Hin as [<-|Hin]; auto.
      destruct (IH _ Hin); auto.
Qed.

Lemma obj_set_NoDup (k : string) (v : value) (fields : list (string * value)) :
  NoDup (map fst fields) -> NoDup (map fst (obj_set k v fields)).
Proof.
  induction fields as [|[k' v'] rest IH]; simpl; intros Hnd.
  - constructor; [tauto | constructor].
  - inversion Hnd as [|? ? Hnotin Hrest]; subst.
    destruct (k' =? k) eqn:E; simpl.
    + now constructor.
    + constructor; auto.
      intros Hin. apply obj_set_keys in Hin as [->|Hin]; auto.
      now rewrite String.eqb_refl in E.
Qed.

Lemma obj_set_same (k : string) (v : value) (fields : list (string * value)) :
  lookup k fields = Some v -> obj_set k v fields = fields.
Proof.
  induction fields as [|[k' v'] rest IH]; simpl; [discriminate|].
  destruct (k' =? k) eqn:E.
  - now intros [= ->].
  - intros H. now rewrite IH.
Qed.

Lemma provenance_key_false (k : string) :
  provenance_key k = false -> "imageIndex" <> k /\ "imageName" <> k.
Proof.
  unfold provenance_key. intros H. apply orb_false_iff in H as [H1 H2].
  apply String.eqb_neq in H1, H2. split; congruence.
Qed.

(** Stamping a detection gives an object that holds the index and the
    name, keeps every other property of the provider with its value, adds
    no other key and no duplicate, and is unchanged by a second stamp.  A
    detection that is not an object, an array or a string keeps nothing
    and becomes the object of the two stamped properties. *)
Theorem stamp_keeps_provider_fields (i : nat) (name : string) (p : value) :
  NoDup (map fst (spread p)) ->
  exists out,
    stamp i name p = VObj out
    /\ NoDup (map fst out)
    /\ lookup "imageIndex" out = Some (VNum (Z.of_nat i))
    /\ lookup "imageName" out = Some (VStr name)
    /\ (forall k, provenance_key k = false ->
          lookup k out = lookup k (spread p))
    /\ (forall k, In k (map fst out) ->
          provenance_key k = true \/ In k (map fst (spread p)))
    /\ stamp i name (VObj out) = VObj out
    /\ (spread p = [] ->
        out = [("imageIndex", VNum (Z.of_nat i)); ("imageName", VStr name)]).
Proof.
  intros Hnd. unfold stamp.
  set (out := obj_set "imageName" (VStr name)
                (obj_set "imageIndex" (VNum (Z.of_nat i)) (spread p))).
  assert (Hidx : lookup "imageIndex" out = Some (VNum (Z.of_nat i))).
  { unfold out. rewrite lookup_obj_set_other by discriminate.
    apply lookup_obj_set_same. }
  assert (Hname : lookup "imageName" out = Some (VStr name)).
  { apply lookup_obj_set_same. }
  exists out. repeat split; auto.
  - unfold out. now do 2 apply obj_set_NoDup.
  - intros k Hk. apply provenance_key_false in Hk as [H1 H2].
    unfold out. now rewrite !lookup_obj_set_other.
  - intros k Hin. unfold out in Hin.
    apply obj_set_keys in Hin as [->|Hin]; [now left|].
    apply obj_set_keys in Hin as [->|Hin]; [now left|now right].
  - cbn [spread]. now rewrite (obj_set_same _ _ _ Hidx),
      (obj_set_same _ _ _ Hname).
  - intros Hempty. unfold out. now rewrite Hempty.
Qed.

Lemma stamp_keeps_provider_fields_witness :
  stamp 4 "tail.png"
    (VObj [("class", VStr "dent"); ("imageName", VStr "x"); ("x", VNum 12)])
  = VObj [("class", VStr "dent"); ("imageName", VStr "tail.png");
          ("x", VNum 12); ("imageIndex", VNum 4)]
  /\ stamp 4 "tail.png" (VNum 7)
     = VObj [("imageIndex", VNum 4); ("imageName", VStr "tail.png")].
Proof.
  split.
  - reflexivity.
  - destruct (stamp_keeps_provider_fields 4 "tail.png" (VNum 7))
      as (out & Hout & _ & _ & _ & _ & _ & _ & Hempty).
    + constructor.
    + rewrite Hout. f_equal. now apply Hempty.
Defined.

(* ===================================================================== *)
(** ** The two shapes of an outcome *)
(* ===================================================================== *)

Lemma js_or_null_reported (v : value) : reported_dimension (js_or v VNull).
Proof.
  unfold reported_dimension, js_or.
  destruct (truthy v) eqn:E; auto.
Qed.

(** Whatever the service does, the entry an item adds to [results] has one
    of two shapes, never a mix: a Failure has a truthy [error], an empty
    [predictions] and no [image_width] or [image_height]; a Success has no
    [error], a [predictions] array, and an [image_width] and [image_height]
    that are each null or a truthy value of the provider. *)
Theorem outcome_is_tagged (env : environment)
  (axios_post : nat -> outbound_call -> axios_result)
  (i : nat) (file : UploadedFile) (st : req_state) :
  exists entry,
    process_item env axios_post i file st =
      (Normal tt,
       mkState (results st ++ [entry]) (calls st ++ [item_call env i file]))
    /\ ((is_failure entry = true /\
         truthy (member entry "error") = true /\
         member entry "predictions" = VArr [] /\
         member entry "image_width" = VUndefined /\
         member entry "image_height" = VUndefined)
        \/
        (is_failure entry = false /\
         member entry "error" = VUndefined /\
         (exists l, member entry "predictions" = VArr l) /\
         reported_dimension (member entry "image_width") /\
         reported_dimension (member entry "image_height"))).
Proof.
  eexists. split; [apply process_item_run|].
  destruct (axios_post _ _) as [data|e]; simpl.
  - destruct (reply_detections data) as [l|]; simpl.
    + right. repeat split; eauto using js_or_null_reported.
    + left. repeat split. now apply js_or_truthy.
  - left. repeat split. now apply js_or_truthy.
Qed.

Lemma outcome_is_tagged_witness :
  exists entry,
    results (snd (process_item sample_env answers_with_zero_size 3
                    (stored_file (png_part "left.png" 2048)) initial_state))
    = [entry]
    /\ (is_failure entry = true \/
        is_failure entry = false /\
        reported_dimension (member entry "image_width")).
Proof.
  destruct (outcome_is_tagged sample_env answers_with_zero_size 3
              (stored_file (png_part "left.png" 2048)) initial_state)
    as (entry & Hrun & [(Hf & _)|(Hs & _ & _ & Hw & _)]);
    exists entry; rewrite Hrun; split; auto.
Defined.

(* ===================================================================== *)
(** ** Defaults of the outer catch *)
(* ===================================================================== *)

(** The outer catch answers an error without a reply with 400 "File too
    large" when its code is [LIMIT_FILE_SIZE] and otherwise with 500
    "Internal server error" and a message that is never empty.  For an
    error with a reply it answers exactly when the status it computes can
    be sent: the reply's own status when that is a code from 100 to 999,
    and 500 when the reply has no status or a falsy one; for a number
    outside 100 to 999 (0 apart) the send throws and nothing is answered.
    An answer repeats the status in its body, reads "Unknown error" for a
    missing status text, and gives the message of the error itself as the
    remote message when the reply has no body. *)
Theorem outer_catch_defaults (error : js_error) :
  (err_response error = None ->
   (str_is (err_code error) "LIMIT_FILE_SIZE" = true /\
    request_catch error = Normal too_large_response)
   \/
   (str_is (err_code error) "LIMIT_FILE_SIZE" = false /\
    exists msg,
      truthy msg = true /\
      request_catch error =
        Normal (mkResponse (VNum 500)
                  (VObj [("error", VStr "Internal server error");
                         ("message", msg)]))))
  /\
  (forall response,
     err_response error = Some response ->
     (truthy (resp_status response) = false ->
      exists resp,
        request_catch error = Normal resp /\ status resp = VNum 500)
     /\ (forall s, resp_status response = VNum s ->
           (100 <= s <= 999)%Z ->
           exists resp,
             request_catch error = Normal resp /\ status resp = VNum s)
     /\ (forall s, resp_status response = VNum s ->
           s <> 0%Z -> (s < 100 \/ 999 < s)%Z ->
           exists e, request_catch error = Thrown e)
     /\ (forall resp,
           request_catch error = Normal resp ->
           member (body resp) "error" = VStr "Roboflow API error" /\
           member (body resp) "status" = status resp /\
           (truthy (resp_statusText response) = false ->
            member (body resp) "statusText" = VStr "Unknown error") /\
           (nullish (resp_data response) = true ->
            member (body resp) "roboflowError" = err_message error))).
Proof.
  unfold request_catch.
  destruct (err_response error) as [response|] eqn:Hr.
  - split; [discriminate|].
    intros ? [= <-]. unfold res_status_send.
    split; [|split; [|split]].
    + intros Hf. rewrite (js_or_falsy _ _ Hf). simpl.
      eexists. split; reflexivity.
    + intros s Hs Hrange. rewrite Hs.
      assert (Hor : js_or (VNum s) (VNum 500) = VNum s).
      { unfold js_or. simpl. destruct (s =? 0)%Z eqn:E; auto.
        apply Z.eqb_eq in E. lia. }
      rewrite Hor.
      assert (Hsend : sendable_status (VNum s) = true).
      { simpl. apply andb_true_iff. split; apply Z.leb_le; lia. }
      rewrite Hsend. eexists. split; reflexivity.
    + intros s Hs Hnz Hout. rewrite Hs.
      assert (Hor : js_or (VNum s) (VNum 500) = VNum s).
      { unfold js_or. simpl. destruct (s =? 0)%Z eqn:E; auto.
        apply Z.eqb_eq in E. contradiction. }
      rewrite Hor.
      assert (Hsend : sendable_status (VNum s) = false).
      { simpl. apply andb_false_iff.
        destruct Hout; [left; apply Z.leb_gt | right; apply Z.leb_gt]; lia. }
      rewrite Hsend. eexists. reflexivity.
    + intros resp.
      destruct (sendable_status (js_or (resp_status response) (VNum 500)));
        [|discriminate].
      intros [= <-]. cbn [body status res_status_json member lookup].
      simpl. split; [reflexivity|]. split; [reflexivity|]. split.
      * apply js_or_falsy.
      * intros Hn. unfold remote_error_message, get_opt. rewrite Hn.
        reflexivity.
  - split; [|discriminate]. intros _.
    destruct (str_is (err_code error) "LIMIT_FILE_SIZE") eqn:Hc.
    + left. now split.
    + right. split; [reflexivity|].
      eexists. split; [|reflexivity]. now apply js_or_truthy.
Qed.

Lemma outer_catch_defaults_witness :
  request_catch
    (mkError AxiosError (VStr "socket hang up") (VStr "ECONNRESET")
       (Some (mkErrorResponse VUndefined VUndefined VNull)))
  = Normal (res_status_json (VNum 500)
      [("error", VStr "Roboflow API error");
       ("message", VStr "socket hang up");
       ("status", VNum 500);
       ("statusText", VStr "Unknown error");
       ("roboflowError", VStr "socket hang up")]).
Proof.
  pose (e := mkError AxiosError (VStr "socket hang up") (VStr "ECONNRESET")
               (Some (mkErrorResponse VUndefined VUndefined VNull))).
  destruct (outer_catch_defaults e) as (_ & Hresp).
  destruct (Hresp _ eq_refl) as (Hmissing & _).
  destruct (Hmissing eq_refl) as (resp & Hrun & _).
  fold e. rewrite Hrun. vm_compute in Hrun. injection Hrun as <-.
  reflexivity.
Defined.

(* ===================================================================== *)
(** ** Errors of the upload middleware *)
(* ===================================================================== *)

Lemma post_analyze_route (env : environment)
  (axios_post : nat -> outbound_call -> axios_result) (r : http_request) :
  post_analyze env axios_post r =
  analyze_route env axios_post (fst (upload_any r)) (snd (upload_any r)).
Proof.
  unfold post_analyze, analyze_route. now destruct (upload_any r).
Qed.

(** An error of the upload middleware, whatever it is, ends the request
    before the handler: the state is untouched and no remote call is made.
    The answer is 400 when the error has the message of the file filter or
    is a MulterError ("File too large" for the code [LIMIT_FILE_SIZE],
    "Upload error" with the error's own message for any other code), and
    otherwise the 500 of the error-handling middleware, whose message is
    never empty. *)
Theorem upload_error_ends_request (env : environment)
  (axios_post : nat -> outbound_call -> axios_result)
  (e : js_error) (req : express_req) (st : req_state) :
  exists resp,
    analyze_route env axios_post (Some e) req st = (Normal resp, st)
    /\ (str_is (err_message e) "Only image files are allowed" = true ->
        resp = invalid_type_response)
    /\ (str_is (err_message e) "Only image files are allowed" = false ->
        err_class e = MulterError ->
        status resp = VNum 400 /\
        (str_is (err_code e) "LIMIT_FILE_SIZE" = true ->
         resp = too_large_response) /\
        (str_is (err_code e) "LIMIT_FILE_SIZE" = false ->
         member (body resp) "error" = VStr "Upload error" /\
         member (body resp) "message" = err_message e))
    /\ (str_is (err_message e) "Only image files are allowed" = false ->
        err_class e <> MulterError ->
        resp = error_middleware e /\
        status resp = VNum 500 /\
        member (body resp) "error" = VStr "Internal server error" /\
        truthy (member (body resp) "message") = true).
Proof.
  unfold analyze_route, upload_callback.
  destruct (str_is (err_message e) "Only image files are allowed") eqn:Hmsg.
  { eexists. split; [reflexivity|]. repeat split; congruence. }
  destruct (err_class e) eqn:Hc.
  4:{ eexists. split; [reflexivity|]. simpl.
      repeat split; try congruence.
      now apply js_or_truthy. }
  3:{ destruct (str_is (err_code e) "LIMIT_FILE_SIZE") eqn:Hcode;
        (eexists; split; [reflexivity|]); simpl;
        repeat split; congruence. }
  all: eexists; (split; [reflexivity|]); simpl;
    repeat split; try congruence; now apply js_or_truthy.
Qed.

Lemma upload_error_ends_request_witness :
  analyze_route sample_env first_call_times_out (Some too_many_parts)
    (mkReq None None (VObj [])) initial_state
  = (Normal (res_status_json (VNum 400)
               [("error", VStr "Upload error");
                ("message", VStr "Too many parts")]),
     initial_state)
  /\
  analyze_route sample_env first_call_times_out (Some disk_error)
    (mkReq None None (VObj [])) initial_state
  = (Normal (res_status_json (VNum 500)
               [("error", VStr "Internal server error");
                ("message", VStr "Unexpected end of form")]),
     initial_state).
Proof.
  split.
  - destruct (upload_error_ends_request sample_env first_call_times_out
                too_many_parts (mkReq None None (VObj [])) initial_state)
      as (resp & Hrun & _ & _ & _).
    rewrite Hrun. vm_compute in Hrun. now injection Hrun as <-.
  - destruct (upload_error_ends_request sample_env first_call_times_out
                disk_error (mkReq None None (VObj [])) initial_state)
      as (resp & Hrun & _ & _ & Hother).
    destruct Hother as (-> & _); [reflexivity | discriminate |].
    exact Hrun.
Defined.
